(** * LittleLemonAPI: data model, serializers and views

    A shallow embedding of the Django application [LittleLemonAPI]
    ([models.py], [fields.py], [serializers.py], [views.py]).

    - The database is a record of tables; a table is the list of its rows in
      the order in which a query set iterates over them.
    - A [Decimal] with two decimal places is the integer number of its
      hundredths, so that sums and products by an integer are exact.
    - Python code that reads or writes the database, or raises, lives in the
      monad [M]: it takes the database and returns an outcome together with
      the database as it is at the moment of the return or of the raise. *)

From Stdlib Require Import ZArith List String Ascii Bool Lia DecimalString.
Import ListNotations.

Local Open Scope string_scope.
Local Open Scope list_scope.
Local Open Scope Z_scope.

(** ** Values *)

Definition Decimal := Z.

(** [rest_framework.response.Response]: the status code and the body. *)
Record Response := {
  status_code : Z;
  data : list (string * string)
}.

Definition HTTP_200_OK : Z := 200.
Definition HTTP_201_CREATED : Z := 201.
Definition HTTP_204_NO_CONTENT : Z := 204.

(** ** models.py *)

Module User.
Record t := { id : Z; username : string }.
End User.

Module Group.
Record t := { id : Z; name : string }.
End Group.

Module Category.
Record t := { id : Z; slug : string; title : string }.
End Category.

Module MenuItem.
Record t := {
  id : Z;
  title : string;
  price : Decimal;
  featured : bool;
  category : Z
}.
End MenuItem.

Module Cart.
Record t := { id : Z; user : Z }.
End Cart.

Module CartItem.
Record t := {
  id : Z;
  user : Z;
  cart : Z;
  menu_item : Z;
  quantity : Z
}.
End CartItem.

Module Order.
Record t := {
  id : Z;
  user : Z;
  delivery_crew : option Z;
  status : bool;
  date : Z
}.
End Order.

Module OrderItem.
Record t := {
  id : Z;
  order : Z;
  menu_item : Z;
  quantity : Z;
  unit_price : Decimal;
  price : Decimal
}.
End OrderItem.

(** The database. [user_groups] is the many-to-many table between users and
    groups, a row being (user id, group id). *)
Record DB := {
  users : list User.t;
  groups : list Group.t;
  user_groups : list (Z * Z);
  categories : list Category.t;
  menu_items : list MenuItem.t;
  carts : list Cart.t;
  cart_items : list CartItem.t;
  orders : list Order.t;
  order_items : list OrderItem.t
}.

(** ** Exceptions and the monad of database code *)

(** The detail of a [ValidationError]: a list of messages when a validator
    raises it, a dictionary from field names to messages when the serializer
    re-raises what its fields and validators reported. *)
Inductive ErrorDetail :=
| DetailList (messages : list string)
| DetailDict (errors : list (string * list string)).

Inductive Exn :=
| ValidationError (detail : ErrorDetail)
| Http404 (message : string)
| PermissionDenied
| DoesNotExist (model : string)
| IntegrityError (constraint : string)
| AttributeError (attribute : string)
| KeyError (key : string)
| InvalidOperation.

Inductive Outcome (A : Type) :=
| Ok (a : A)
| Raise (e : Exn).
Arguments Ok {A} a.
Arguments Raise {A} e.

Definition M (A : Type) : Type := DB -> Outcome A * DB.

Definition ret {A} (a : A) : M A := fun db => (Ok a, db).

Definition raise {A} (e : Exn) : M A := fun db => (Raise e, db).

Definition bind {A B} (c : M A) (k : A -> M B) : M B :=
  fun db =>
    match c db with
    | (Ok a, db') => k a db'
    | (Raise e, db') => (Raise e, db')
    end.

Definition get : M DB := fun db => (Ok db, db).

Definition modify (f : DB -> DB) : M unit := fun db => (Ok tt, f db).

Notation "x <- c ;; k" := (bind c (fun x => k))
  (at level 61, c at next level, right associativity).
Notation "c ;;; k" := (bind c (fun _ => k))
  (at level 61, right associativity).

(** [for x in l: acc = f(acc, x)], the loop with an accumulator. *)
Fixpoint for_loop {A B} (f : B -> A -> M B) (acc : B) (l : list A) : M B :=
  match l with
  | [] => ret acc
  | x :: l' => acc' <- f acc x ;; for_loop f acc' l'
  end.

(** [for x in l: f(x)], the loop run for its effects. *)
Fixpoint for_each {A} (f : A -> M unit) (l : list A) : M unit :=
  match l with
  | [] => ret tt
  | x :: l' => f x ;;; for_each f l'
  end.

(** [d[key]] on a dictionary whose entry for [key] is [entry]. *)
Definition dict_get {A} (key : string) (entry : option A) : M A :=
  match entry with
  | Some v => ret v
  | None => raise (KeyError key)
  end.

(** Writing one table of the database. *)
Definition set_user_groups (l : list (Z * Z)) (db : DB) : DB :=
  {| users := users db; groups := groups db; user_groups := l;
     categories := categories db; menu_items := menu_items db;
     carts := carts db; cart_items := cart_items db;
     orders := orders db; order_items := order_items db |}.

Definition set_carts (l : list Cart.t) (db : DB) : DB :=
  {| users := users db; groups := groups db; user_groups := user_groups db;
     categories := categories db; menu_items := menu_items db;
     carts := l; cart_items := cart_items db;
     orders := orders db; order_items := order_items db |}.

Definition set_cart_items (l : list CartItem.t) (db : DB) : DB :=
  {| users := users db; groups := groups db; user_groups := user_groups db;
     categories := categories db; menu_items := menu_items db;
     carts := carts db; cart_items := l;
     orders := orders db; order_items := order_items db |}.

Definition set_orders (l : list Order.t) (db : DB) : DB :=
  {| users := users db; groups := groups db; user_groups := user_groups db;
     categories := categories db; menu_items := menu_items db;
     carts := carts db; cart_items := cart_items db;
     orders := l; order_items := order_items db |}.

Definition set_order_items (l : list OrderItem.t) (db : DB) : DB :=
  {| users := users db; groups := groups db; user_groups := user_groups db;
     categories := categories db; menu_items := menu_items db;
     carts := carts db; cart_items := cart_items db;
     orders := orders db; order_items := l |}.

(** ** Request data and validated data *)

(** The body of a request on the cart items: [None] is an absent key. The
    two fields are integer fields, and the body is taken to carry integers. *)
Module CartItemData.
Record t := { menu_item_id : option Z; quantity : option Z }.
End CartItemData.

(** [validated_data] of the cart item serializer: [None] is an absent key. *)
Module CartItemAttrs.
Record t := { user : option Z; menu_item_id : option Z; quantity : option Z }.
End CartItemAttrs.

(** The body of a request on the orders: [None] is an absent key, and
    [Some None] on [delivery_crew] is the JSON [null]. *)
Module OrderData.
Record t := { delivery_crew : option (option Z); status : option bool }.
End OrderData.

(** [validated_data] of the order serializer. *)
Module OrderAttrs.
Record t := {
  user : option Z;
  delivery_crew : option (option Z);
  status : option bool
}.
End OrderAttrs.

(** ** The object-relational mapper, as far as the application uses it *)

Module ORM.

(** The primary key given to a new row: one more than the largest in the
    table. *)
Definition next_id (ids : list Z) : Z := 1 + fold_right Z.max 0 ids.

(** [item.menu_item] on a cart item: the row of the foreign key. *)
Definition menu_item_of (pk : Z) : M MenuItem.t :=
  db <- get ;;
  match find (fun m => MenuItem.id m =? pk) (menu_items db) with
  | Some m => ret m
  | None => raise (DoesNotExist "MenuItem")
  end.

(** [cart.cart_items.all()]: the reverse of [CartItem.cart]. *)
Definition Cart_cart_items (db : DB) (cart : Cart.t) : list CartItem.t :=
  filter (fun i => CartItem.cart i =? Cart.id cart) (cart_items db).

(** [user.cart_items.all()]: the reverse of [CartItem.user]. *)
Definition User_cart_items (db : DB) (user : Z) : list CartItem.t :=
  filter (fun i => CartItem.user i =? user) (cart_items db).

(** [order.order_items.all()]: the reverse of [OrderItem.order]. *)
Definition Order_order_items (db : DB) (order : Order.t) : list OrderItem.t :=
  filter (fun i => OrderItem.order i =? Order.id order) (order_items db).

(** [user.cart], the reverse of the one-to-one field [Cart.user]; [None] is
    where [hasattr(user, "cart")] is false. *)
Definition User_cart (db : DB) (user : Z) : option Cart.t :=
  find (fun c => Cart.user c =? user) (carts db).

(** [user.groups.filter(name=name).exists()]. *)
Definition User_in_group (db : DB) (user : Z) (name : string) : bool :=
  existsb
    (fun g =>
       String.eqb (Group.name g) name
       && existsb (fun ug => (fst ug =? user) && (snd ug =? Group.id g))
            (user_groups db))
    (groups db).

(** [Cart.objects.create(user=user)]; [Cart.user] is a one-to-one field. *)
Definition Cart_objects_create (user : Z) : M Cart.t :=
  db <- get ;;
  if existsb (fun c => Cart.user c =? user) (carts db)
  then raise (IntegrityError "cart.user")
  else
    let cart := {| Cart.id := next_id (map Cart.id (carts db));
                   Cart.user := user |} in
    modify (set_carts (carts db ++ [cart])) ;;;
    ret cart.

(** The rows that break [unique_together = ["user", "menu_item"]] for the
    pair, the row of primary key [except] set aside. *)
Definition CartItem_same_pair (db : DB) (user menu_item : Z) (except : option Z)
  : list CartItem.t :=
  filter
    (fun i =>
       (CartItem.user i =? user) && (CartItem.menu_item i =? menu_item)
       && match except with
          | Some pk => negb (CartItem.id i =? pk)
          | None => true
          end)
    (cart_items db).

(** [CartItem.objects.create(cart=cart, **validated_data)]. *)
Definition CartItem_objects_create (cart : Z) (validated_data : CartItemAttrs.t)
  : M CartItem.t :=
  db <- get ;;
  match CartItemAttrs.user validated_data,
        CartItemAttrs.menu_item_id validated_data,
        CartItemAttrs.quantity validated_data with
  | Some user, Some menu_item, Some quantity =>
      match CartItem_same_pair db user menu_item None with
      | _ :: _ => raise (IntegrityError "cartitem.user, cartitem.menu_item")
      | [] =>
          let item := {| CartItem.id := next_id (map CartItem.id (cart_items db));
                         CartItem.user := user;
                         CartItem.cart := cart;
                         CartItem.menu_item := menu_item;
                         CartItem.quantity := quantity |} in
          modify (set_cart_items (cart_items db ++ [item])) ;;;
          ret item
      end
  | _, _, _ => raise (IntegrityError "cartitem: NOT NULL")
  end.

(** [instance.save()] on a cart item that is in the table. *)
Definition CartItem_save (instance : CartItem.t) : M unit :=
  db <- get ;;
  match CartItem_same_pair db (CartItem.user instance)
          (CartItem.menu_item instance) (Some (CartItem.id instance)) with
  | _ :: _ => raise (IntegrityError "cartitem.user, cartitem.menu_item")
  | [] =>
      modify (set_cart_items
                (map (fun i => if CartItem.id i =? CartItem.id instance
                               then instance else i)
                   (cart_items db)))
  end.

(** [cart.delete()]: the cart items of the cart go with it
    ([on_delete=models.CASCADE] on [CartItem.cart]). *)
Definition Cart_delete (cart : Cart.t) : M unit :=
  db <- get ;;
  modify (set_cart_items
            (filter (fun i => negb (CartItem.cart i =? Cart.id cart))
               (cart_items db))) ;;;
  modify (set_carts
            (filter (fun c => negb (Cart.id c =? Cart.id cart)) (carts db))).

(** [Order.objects.create] on the validated data: [delivery_crew] is nullable and
    [status] has the default [0]; [date] is set on creation
    ([auto_now_add]). *)
Definition Order_objects_create (today : Z) (validated_data : OrderAttrs.t)
  : M Order.t :=
  db <- get ;;
  match OrderAttrs.user validated_data with
  | None => raise (IntegrityError "order.user: NOT NULL")
  | Some user =>
      let order :=
        {| Order.id := next_id (map Order.id (orders db));
           Order.user := user;
           Order.delivery_crew :=
             match OrderAttrs.delivery_crew validated_data with
             | Some crew => crew
             | None => None
             end;
           Order.status :=
             match OrderAttrs.status validated_data with
             | Some s => s
             | None => false
             end;
           Order.date := today |} in
      modify (set_orders (orders db ++ [order])) ;;;
      ret order
  end.

(** [OrderItem.objects.create(...)], under
    [unique_together = ["order", "menu_item"]]. *)
Definition OrderItem_objects_create
  (order menu_item quantity : Z) (unit_price price : Decimal) : M OrderItem.t :=
  db <- get ;;
  if existsb
       (fun i => (OrderItem.order i =? order)
                 && (OrderItem.menu_item i =? menu_item))
       (order_items db)
  then raise (IntegrityError "orderitem.order, orderitem.menu_item")
  else
    let item := {| OrderItem.id := next_id (map OrderItem.id (order_items db));
                   OrderItem.order := order;
                   OrderItem.menu_item := menu_item;
                   OrderItem.quantity := quantity;
                   OrderItem.unit_price := unit_price;
                   OrderItem.price := price |} in
    modify (set_order_items (order_items db ++ [item])) ;;;
    ret item.

(** [instance.save()] on an order that is in the table. *)
Definition Order_save (instance : Order.t) : M unit :=
  db <- get ;;
  modify (set_orders
            (map (fun o => if Order.id o =? Order.id instance
                           then instance else o)
               (orders db))).

(** [instance.delete()] on a cart item. *)
Definition CartItem_delete (instance : CartItem.t) : M unit :=
  db <- get ;;
  modify (set_cart_items
            (filter (fun i => negb (CartItem.id i =? CartItem.id instance))
               (cart_items db))).

End ORM.

(** ** The serializer machinery of the framework

    What [Serializer.run_validation] does with one field: the field gives a
    value, is skipped (absent and not required, or absent in a partial
    update), or reports messages. The serializer gathers the messages of all
    the fields and raises one [ValidationError] when there are any. Only a
    [ValidationError] raised by a field or by a [validate_<field>] method is
    gathered; any other exception goes through. *)

Inductive FieldResult (A : Type) :=
| Value (a : A)
| Skip
| Errors (messages : list string).
Arguments Value {A} a.
Arguments Skip {A}.
Arguments Errors {A} messages.

Definition field_value {A} (r : FieldResult A) : option A :=
  match r with
  | Value a => Some a
  | _ => None
  end.

Definition field_errors {A} (name : string) (r : FieldResult A)
  : list (string * list string) :=
  match r with
  | Errors messages => [(name, messages)]
  | _ => []
  end.

Definition detail_messages (detail : ErrorDetail) : list string :=
  match detail with
  | DetailList messages => messages
  | DetailDict errors => List.concat (map snd errors)
  end.

(** The call of a [validate_<field>] method inside the loop over the
    fields. *)
Definition validated {A} (c : M A) : M (FieldResult A) :=
  fun db =>
    match c db with
    | (Ok a, db') => (Ok (Value a), db')
    | (Raise (ValidationError detail), db') =>
        (Ok (Errors (detail_messages detail)), db')
    | (Raise e, db') => (Raise e, db')
    end.

(** The call of the serializer's validators: what they raise is raised again
    under the key [non_field_errors]. *)
Definition run_validators {A} (c : M A) : M A :=
  fun db =>
    match c db with
    | (Raise (ValidationError (DetailList messages)), db') =>
        (Raise (ValidationError (DetailDict [("non_field_errors", messages)])),
         db')
    | r => r
    end.

(** A required [IntegerField], with its [min_value] when it has one. *)
Definition IntegerField (partial : bool) (min_value : option Z)
  (input : option Z) : FieldResult Z :=
  match input with
  | None => if partial then Skip else Errors ["This field is required."]
  | Some v =>
      match min_value with
      | Some lo =>
          if v <? lo
          then Errors [("Ensure this value is greater than or equal to "
                        ++ NilZero.string_of_int (Z.to_int lo) ++ ".")%string]
          else Value v
      | None => Value v
      end
  end.

Definition or_else {A} (o : option A) (default : A) : A :=
  match o with
  | Some a => a
  | None => default
  end.

(** ** fields.py *)

Module SerializerMethodDecimalField.
Section Field.

(** [DecimalField.to_representation] of the framework, for the field's
    [max_digits] and [decimal_places]: the text of the number, or the
    exception of a number that does not fit. *)
Variable DecimalField_to_representation : Decimal -> Outcome string.

(** [SerializerMethodField.to_representation] calls the serializer's method
    on the object; the decimal field renders what the method returns. *)
Definition to_representation {Obj} (method : Obj -> M Decimal) (value : Obj)
  : M string :=
  temp <- method value ;;
  match DecimalField_to_representation temp with
  | Ok s => ret s
  | Raise e => raise e
  end.

End Field.
End SerializerMethodDecimalField.

(** ** serializers.py *)

Module CartSerializer.

Definition get_total (obj : Cart.t) : M Decimal :=
  db <- get ;;
  for_loop
    (fun total item =>
       m <- ORM.menu_item_of (CartItem.menu_item item) ;;
       ret (total + MenuItem.price m * CartItem.quantity item))
    0 (ORM.Cart_cart_items db obj).

End CartSerializer.

Module CartItemSerializer.

(** [extra_kwargs = {"quantity": {"min_value": 1}}]. The upper bound that the
    small integer column of the model may add to the field depends on the
    database backend and is left out. *)
Definition quantity_min_value : Z := 1.

Definition validate_menu_item_id (value : Z) : M Z :=
  db <- get ;;
  if existsb (fun m => MenuItem.id m =? value) (menu_items db)
  then ret value
  else raise (ValidationError (DetailList ["Invalid menu item ID"])).

Definition get_price (obj : CartItem.t) : M Decimal :=
  m <- ORM.menu_item_of (CartItem.menu_item obj) ;;
  ret (MenuItem.price m * CartItem.quantity obj).

(** The loop over the writable fields: [user] is a hidden field whose default
    is the user of the request (skipped in a partial update like every
    absent field), [menu_item_id] and [quantity] are required integer
    fields. *)
Definition to_internal_value (partial : bool) (request_user : Z)
  (data : CartItemData.t) : M CartItemAttrs.t :=
  let user := if partial then None else Some request_user in
  menu_item_id <-
    match IntegerField partial None (CartItemData.menu_item_id data) with
    | Value v => validated (validate_menu_item_id v)
    | Skip => ret Skip
    | Errors messages => ret (Errors messages)
    end ;;
  let quantity :=
    IntegerField partial (Some quantity_min_value)
      (CartItemData.quantity data) in
  match (field_errors "menu_item_id" menu_item_id
         ++ field_errors "quantity" quantity)%list with
  | [] =>
      ret {| CartItemAttrs.user := user;
             CartItemAttrs.menu_item_id := field_value menu_item_id;
             CartItemAttrs.quantity := field_value quantity |}
  | errors => raise (ValidationError (DetailDict errors))
  end.

(** [Meta.validators]: the [UniqueTogetherValidator] on
    [["user", "menu_item_id"]] over all the cart items. In an update the
    fields that were not provided are read on the instance, and the instance
    is left out of the query set. *)
Definition UniqueTogetherValidator (instance : option CartItem.t)
  (attrs : CartItemAttrs.t) : M CartItemAttrs.t :=
  db <- get ;;
  let attrs :=
    match instance with
    | Some i =>
        {| CartItemAttrs.user :=
             Some (or_else (CartItemAttrs.user attrs) (CartItem.user i));
           CartItemAttrs.menu_item_id :=
             Some (or_else (CartItemAttrs.menu_item_id attrs)
                     (CartItem.menu_item i));
           CartItemAttrs.quantity := CartItemAttrs.quantity attrs |}
    | None => attrs
    end in
  match CartItemAttrs.user attrs, CartItemAttrs.menu_item_id attrs with
  | Some user, Some menu_item_id =>
      match ORM.CartItem_same_pair db user menu_item_id
              (option_map CartItem.id instance) with
      | [] => ret attrs
      | _ :: _ =>
          raise (ValidationError
                   (DetailList
                      ["The fields user, menu_item_id must make a unique set."]))
      end
  | _, _ =>
      raise (ValidationError (DetailList ["This field is required."]))
  end.

Definition run_validation (instance : option CartItem.t) (partial : bool)
  (request_user : Z) (data : CartItemData.t) : M CartItemAttrs.t :=
  value <- to_internal_value partial request_user data ;;
  run_validators (UniqueTogetherValidator instance value).

Definition create (validated_data : CartItemAttrs.t) : M CartItem.t :=
  user <- dict_get "user" (CartItemAttrs.user validated_data) ;;
  db <- get ;;
  cart <- match ORM.User_cart db user with
          | Some cart => ret cart
          | None => ORM.Cart_objects_create user
          end ;;
  ORM.CartItem_objects_create (Cart.id cart) validated_data.

(** [ModelSerializer.update], which the class inherits: every validated
    value is set on the instance, and the instance is saved. *)
Definition update (instance : CartItem.t) (validated_data : CartItemAttrs.t)
  : M CartItem.t :=
  let instance' :=
    {| CartItem.id := CartItem.id instance;
       CartItem.user :=
         or_else (CartItemAttrs.user validated_data) (CartItem.user instance);
       CartItem.cart := CartItem.cart instance;
       CartItem.menu_item :=
         or_else (CartItemAttrs.menu_item_id validated_data)
           (CartItem.menu_item instance);
       CartItem.quantity :=
         or_else (CartItemAttrs.quantity validated_data)
           (CartItem.quantity instance) |} in
  ORM.CartItem_save instance' ;;;
  ret instance'.

End CartItemSerializer.

Module OrderSerializer.

(** [Meta.fields], the keys of the dictionary that [get_fields] builds. Of
    these [user] (hidden), [delivery_crew] and [status] are written from the
    request; [id], [date], [order_items] and [total] are read-only. *)
Definition Meta_fields : list string :=
  ["id"; "user"; "delivery_crew"; "status"; "date"; "order_items"; "total"].

Definition get_total (obj : Order.t) : M Decimal :=
  db <- get ;;
  for_loop (fun total item => ret (total + OrderItem.price item))
    0 (ORM.Order_order_items db obj).

Definition validate_user (value : Z) : M Z :=
  db <- get ;;
  match ORM.User_cart_items db value with
  | [] =>
      raise (ValidationError
               (DetailList ["Cannot create order for user with an empty cart"]))
  | _ :: _ => ret value
  end.

(** [value] is the user that the primary key of the request names, or
    [None] for a null [delivery_crew]: [None.groups] raises. *)
Definition validate_delivery_crew (value : option Z) : M (option Z) :=
  db <- get ;;
  match value with
  | None => raise (AttributeError "groups")
  | Some crew =>
      if ORM.User_in_group db crew "Delivery Crew"
      then ret value
      else raise (ValidationError (DetailList ["Invalid delivery crew ID"]))
  end.

(** The loop over the writable fields among [fields]. [user] is a hidden
    field whose default is the user of the request on creation and nothing
    on update ([CreateOnlyDefault]); [delivery_crew] is a nullable, optional
    primary key of a user; [status] is an optional boolean. *)
Definition to_internal_value (fields : list string) (instance : option Order.t)
  (partial : bool) (request_user : Z) (data : OrderData.t) : M OrderAttrs.t :=
  db <- get ;;
  user <-
    (if existsb (String.eqb "user") fields
     then match instance with
          | None => if partial then ret Skip
                    else validated (validate_user request_user)
          | Some _ => ret Skip
          end
     else ret Skip) ;;
  delivery_crew <-
    (if existsb (String.eqb "delivery_crew") fields
     then match OrderData.delivery_crew data with
          | None => ret Skip
          | Some None => validated (validate_delivery_crew None)
          | Some (Some pk) =>
              if existsb (fun u => User.id u =? pk) (users db)
              then validated (validate_delivery_crew (Some pk))
              else ret (Errors ["Invalid pk - object does not exist."])
          end
     else ret Skip) ;;
  let status :=
    if existsb (String.eqb "status") fields
    then match OrderData.status data with
         | None => Skip
         | Some b => Value b
         end
    else Skip in
  match field_errors "user" user ++ field_errors "delivery_crew" delivery_crew
        ++ field_errors "status" status with
  | [] =>
      ret {| OrderAttrs.user := field_value user;
             OrderAttrs.delivery_crew := field_value delivery_crew;
             OrderAttrs.status := field_value status |}
  | errors => raise (ValidationError (DetailDict errors))
  end.

Definition create (today : Z) (validated_data : OrderAttrs.t) : M Order.t :=
  order <- ORM.Order_objects_create today validated_data ;;
  user <- dict_get "user" (OrderAttrs.user validated_data) ;;
  db <- get ;;
  for_each
    (fun item =>
       m <- ORM.menu_item_of (CartItem.menu_item item) ;;
       ORM.OrderItem_objects_create
         (Order.id order)
         (MenuItem.id m)
         (CartItem.quantity item)
         (MenuItem.price m)
         (MenuItem.price m * CartItem.quantity item) ;;;
       ret tt)
    (ORM.User_cart_items db user) ;;;
  db <- get ;;
  match ORM.User_cart db user with
  | Some cart => ORM.Cart_delete cart
  | None => raise (DoesNotExist "Cart")
  end ;;;
  ret order.

(** [ModelSerializer.update], which the class inherits: every validated
    value is set on the instance, and the instance is saved. *)
Definition update (instance : Order.t) (validated_data : OrderAttrs.t)
  : M Order.t :=
  let instance' :=
    {| Order.id := Order.id instance;
       Order.user :=
         or_else (OrderAttrs.user validated_data) (Order.user instance);
       Order.delivery_crew :=
         or_else (OrderAttrs.delivery_crew validated_data)
           (Order.delivery_crew instance);
       Order.status :=
         or_else (OrderAttrs.status validated_data) (Order.status instance);
       Order.date := Order.date instance |} in
  ORM.Order_save instance' ;;;
  ret instance'.

End OrderSerializer.

Module HiddenFieldSerializerMixin.

(** [fields.pop(field, None)] *)
Definition pop (field : string) (fields : list string) : list string :=
  filter (fun name => negb (String.eqb name field)) fields.

(** [fields] stands for [super().get_fields()]. *)
Definition get_fields (hidden_fields : list string) (fields : list string)
  : list string :=
  fold_left (fun fields field => pop field fields) hidden_fields fields.

End HiddenFieldSerializerMixin.

(** ** views.py *)

Module CartViewSet.

Definition get_queryset (db : DB) (request_user : Z) : list Cart.t :=
  filter (fun c => Cart.user c =? request_user) (carts db).

End CartViewSet.

Module CartItemViewSet.

Definition get_queryset (db : DB) (request_user : Z) : list CartItem.t :=
  filter (fun i => CartItem.user i =? request_user) (cart_items db).

(** [get_object] of the framework: the row of the query set with the primary
    key of the URL. *)
Definition get_object (request_user pk : Z) : M CartItem.t :=
  db <- get ;;
  match find (fun i => CartItem.id i =? pk) (get_queryset db request_user) with
  | Some i => ret i
  | None => raise (Http404 "No CartItem matches the given query.")
  end.

(** [CreateModelMixin.create] up to [serializer.save()]: the cart item that
    was saved is returned in place of the response that renders it. *)
Definition create (request_user : Z) (data : CartItemData.t) : M CartItem.t :=
  validated_data <-
    CartItemSerializer.run_validation None false request_user data ;;
  CartItemSerializer.create validated_data.

(** [UpdateModelMixin.update] ([PUT]) and [partial_update] ([PATCH]) up to
    [serializer.save()]. *)
Definition update (request_user pk : Z) (partial : bool)
  (data : CartItemData.t) : M CartItem.t :=
  instance <- get_object request_user pk ;;
  validated_data <-
    CartItemSerializer.run_validation (Some instance) partial request_user
      data ;;
  CartItemSerializer.update instance validated_data.

Definition destroy_all (request_user : Z) : M Response :=
  db <- get ;;
  match ORM.User_cart db request_user with
  | Some cart => ORM.Cart_delete cart
  | None => ret tt
  end ;;;
  ret {| status_code := HTTP_204_NO_CONTENT; data := [] |}.

(** [DestroyModelMixin.destroy]: the cart item of the URL is deleted. *)
Definition destroy (request_user pk : Z) : M Response :=
  instance <- get_object request_user pk ;;
  ORM.CartItem_delete instance ;;;
  ret {| status_code := HTTP_204_NO_CONTENT; data := [] |}.

End CartItemViewSet.

Module OrderViewSet.

(** The class that [get_serializer_class] builds is [OrderSerializer] under
    the mixin, with the [hidden_fields] computed here: the list stands for
    the class. *)
Definition get_serializer_class (method : string) (request_user : Z)
  : M (list string) :=
  db <- get ;;
  let hidden_fields := [] in
  if String.eqb method "POST"
  then ret (hidden_fields ++ ["delivery_crew"] ++ ["status"])
  else if existsb (String.eqb method) ["PUT"; "PATCH"]
          && ORM.User_in_group db request_user "Delivery Crew"
       then ret (hidden_fields ++ ["delivery_crew"])
       else ret hidden_fields.

(** [CreateModelMixin.create] up to [serializer.save()], for a [POST]. *)
Definition create (today : Z) (request_user : Z) (data : OrderData.t)
  : M Order.t :=
  hidden_fields <- get_serializer_class "POST" request_user ;;
  let fields :=
    HiddenFieldSerializerMixin.get_fields hidden_fields
      OrderSerializer.Meta_fields in
  validated_data <-
    OrderSerializer.to_internal_value fields None false request_user data ;;
  OrderSerializer.create today validated_data.

Definition get_queryset (db : DB) (request_user : Z) : list Order.t :=
  if ORM.User_in_group db request_user "Manager"
  then orders db
  else if ORM.User_in_group db request_user "Delivery Crew"
       then filter
              (fun o =>
                 (Order.user o =? request_user)
                 || match Order.delivery_crew o with
                    | Some crew => crew =? request_user
                    | None => false
                    end)
              (orders db)
       else filter (fun o => Order.user o =? request_user) (orders db).

(** [get_object] of the framework: the row of the query set with the primary
    key of the URL. *)
Definition get_object (request_user pk : Z) : M Order.t :=
  db <- get ;;
  match find (fun o => Order.id o =? pk) (get_queryset db request_user) with
  | Some o => ret o
  | None => raise (Http404 "No Order matches the given query.")
  end.

(** [UpdateModelMixin.update] ([PUT], [partial] false) and [partial_update]
    ([PATCH], [partial] true) up to [serializer.save()]. *)
Definition update (request_user pk : Z) (partial : bool) (data : OrderData.t)
  : M Order.t :=
  instance <- get_object request_user pk ;;
  hidden_fields <-
    get_serializer_class (if partial then "PATCH" else "PUT") request_user ;;
  let fields :=
    HiddenFieldSerializerMixin.get_fields hidden_fields
      OrderSerializer.Meta_fields in
  validated_data <-
    OrderSerializer.to_internal_value fields (Some instance) partial
      request_user data ;;
  OrderSerializer.update instance validated_data.

End OrderViewSet.

Module GroupUserViewSet.
Section View.

(** [slugify] of the package [python-slugify]. *)
Variable slugify : string -> string.

(** [DjangoModelPermissionsStrict] of [permissions.py], which
    [permission_classes] names: whether the user may do the request. *)
Variable has_permission : string -> Z -> DB -> bool.

(** The view starts with [group = None]; the result is [self.group]. *)
Definition initialize_request (group_name : string) : M Group.t :=
  db <- get ;;
  match find (fun group => String.eqb (slugify (Group.name group)) group_name)
          (groups db) with
  | Some group => ret group
  | None => raise (Http404 "Group not found")
  end.

Definition in_user_set (db : DB) (group : Group.t) (user : Z) : bool :=
  existsb (fun ug => (fst ug =? user) && (snd ug =? Group.id group))
    (user_groups db).

Definition get_queryset (db : DB) (group : Group.t) : list User.t :=
  filter (fun u => in_user_set db group (User.id u)) (users db).

(** [request.data["username"]] on the body of the request. *)
Definition data_get (key : string) (request_data : list (string * string))
  : option string :=
  option_map snd (find (fun kv => String.eqb (fst kv) key) request_data).

Definition create (group : Group.t) (request_data : list (string * string))
  : M Response :=
  username <- dict_get "username" (data_get "username" request_data) ;;
  db <- get ;;
  user <- match find (fun u => String.eqb (User.username u) username)
                  (users db) with
          | Some u => ret u
          | None => raise (Http404 "No User matches the given query.")
          end ;;
  (if in_user_set db group (User.id user)
   then ret tt
   else modify (set_user_groups
                  (user_groups db ++ [(User.id user, Group.id group)]))) ;;;
  ret {| status_code := HTTP_201_CREATED;
         data := [("message", "User added to group")] |}.

Definition destroy (group : Group.t) (pk : Z) : M Response :=
  db <- get ;;
  user <- match find (fun u => User.id u =? pk) (get_queryset db group) with
          | Some u => ret u
          | None => raise (Http404 "No User matches the given query.")
          end ;;
  modify (set_user_groups
            (filter (fun ug => negb ((fst ug =? User.id user)
                                     && (snd ug =? Group.id group)))
               (user_groups db))) ;;;
  ret {| status_code := HTTP_200_OK;
         data := [("message", "User removed from group")] |}.

(** [dispatch] of the framework for a [POST] on [groups/<group_name>/users]:
    the request is initialised, then the permissions are checked, then the
    handler runs. *)
Definition dispatch_create (request_user : Z) (group_name : string)
  (request_data : list (string * string)) : M Response :=
  group <- initialize_request group_name ;;
  db <- get ;;
  (if has_permission "POST" request_user db then ret tt
   else raise PermissionDenied) ;;;
  create group request_data.


End View.
End GroupUserViewSet.

(** ** urls.py

    The requests that write to the carts, the orders and the groups, and the
    view action that each route gives them: [cart/menu-items] ([post] to
    [create], [delete] to [destroy_all]), [cart/menu-items/<int:pk>] ([put]
    to [update], [patch] to [partial_update], [delete] to [destroy]), the
    router's [orders] and [orders/<pk>], and the router's
    [groups/<group_name>/users] and [groups/<group_name>/users/<pk>], which
    a path reaches only with a [group_name] that matches the pattern. The
    user is the authenticated user of the request; [today] is the date of
    the request. *)

(** The regular expressions of the routes: the constructs that the pattern
    of [group_name] uses, with the alternative that derivatives need. *)
Inductive Regex :=
| Empty
| Eps
| Class (p : ascii -> bool)
| Seq (r1 r2 : Regex)
| Alt (r1 r2 : Regex)
| Star (r : Regex).

(** [c] and [r+] *)
Definition Chr (c : ascii) : Regex := Class (Ascii.eqb c).

Definition Plus (r : Regex) : Regex := Seq r (Star r).

Fixpoint nullable (r : Regex) : bool :=
  match r with
  | Empty => false
  | Eps => true
  | Class _ => false
  | Seq r1 r2 => nullable r1 && nullable r2
  | Alt r1 r2 => nullable r1 || nullable r2
  | Star _ => true
  end.

Fixpoint deriv (c : ascii) (r : Regex) : Regex :=
  match r with
  | Empty => Empty
  | Eps => Empty
  | Class p => if p c then Eps else Empty
  | Seq r1 r2 =>
      if nullable r1
      then Alt (Seq (deriv c r1) r2) (deriv c r2)
      else Seq (deriv c r1) r2
  | Alt r1 r2 => Alt (deriv c r1) (deriv c r2)
  | Star r' => Seq (deriv c r') (Star r')
  end.

(** The whole string matches the expression. *)
Fixpoint fullmatch (r : Regex) (s : string) : bool :=
  match s with
  | EmptyString => nullable r
  | String c s' => fullmatch (deriv c r) s'
  end.

(** [[a-z0-9]] *)
Definition lower_or_digit (c : ascii) : bool :=
  let n := nat_of_ascii c in
  ((97 <=? n)%nat && (n <=? 122)%nat) || ((48 <=? n)%nat && (n <=? 57)%nat).

(** [[a-z0-9]+(?:-[a-z0-9]+)*], the pattern of [group_name] in the route
    [groups/(?P<group_name>...)/users]. *)
Definition group_name_pattern : Regex :=
  Seq (Plus (Class lower_or_digit))
      (Star (Seq (Chr "-") (Plus (Class lower_or_digit)))).

(** The strings of a regular expression. *)
Inductive Lang : Regex -> string -> Prop :=
| Lang_Eps : Lang Eps EmptyString
| Lang_Class p c : p c = true -> Lang (Class p) (String c EmptyString)
| Lang_Seq r1 r2 s1 s2 :
    Lang r1 s1 -> Lang r2 s2 -> Lang (Seq r1 r2) (String.append s1 s2)
| Lang_Alt_l r1 r2 s : Lang r1 s -> Lang (Alt r1 r2) s
| Lang_Alt_r r1 r2 s : Lang r2 s -> Lang (Alt r1 r2) s
| Lang_Star_nil r : Lang (Star r) EmptyString
| Lang_Star_cons r s1 s2 :
    Lang r s1 -> Lang (Star r) s2 -> Lang (Star r) (String.append s1 s2).

(** A word of the pattern: a string of lower-case letters and digits that is
    not empty. *)
Definition is_word (w : string) : Prop :=
  w <> EmptyString
  /\ Forall (fun c => lower_or_digit c = true) (list_ascii_of_string w).

(** The words after the first, each behind its hyphen. *)
Fixpoint hyphenated (ws : list string) : string :=
  match ws with
  | [] => EmptyString
  | w :: ws' => String "-" (String.append w (hyphenated ws'))
  end.



Section Routes.

Variable slugify : string -> string.
Variable has_permission : string -> Z -> DB -> bool.



End Routes.

(** ** Predicates of the statements *)

(** The sum of a list of amounts. *)
Definition total_of (amounts : list Decimal) : Decimal :=
  fold_right Z.add 0 amounts.

(** The user is a member of the group of that name. *)
Definition belongs_to (db : DB) (user : Z) (name : string) : Prop :=
  exists g,
    In g (groups db) /\ Group.name g = name
    /\ In (user, Group.id g) (user_groups db).

(** Every cart item sits in a cart of its own user. *)
Definition cart_items_own_cart (db : DB) : Prop :=
  forall i, In i (cart_items db) ->
    exists c, In c (carts db)
              /\ Cart.id c = CartItem.cart i /\ Cart.user c = CartItem.user i.

(** The order item [oi] is the cart item [ci] as the order [order] records
    it: same menu item and quantity, the price of the menu item as the
    database [db] has it, and that price times the quantity. *)
Definition snapshot_of (db : DB) (order : Order.t) (ci : CartItem.t)
  (oi : OrderItem.t) : Prop :=
  OrderItem.order oi = Order.id order
  /\ OrderItem.menu_item oi = CartItem.menu_item ci
  /\ OrderItem.quantity oi = CartItem.quantity ci
  /\ exists m,
       In m (menu_items db) /\ MenuItem.id m = CartItem.menu_item ci
       /\ OrderItem.unit_price oi = MenuItem.price m
       /\ OrderItem.price oi = MenuItem.price m * CartItem.quantity ci.



(** Every order item refers to an order of the table. *)
Definition order_items_have_order (db : DB) : Prop :=
  forall oi, In oi (order_items db) ->
    exists o, In o (orders db) /\ Order.id o = OrderItem.order oi.

(** The delivery crew of every order is a member of the group "Delivery
    Crew". *)
Definition delivery_crews_in_group (db : DB) : Prop :=
  forall o crew, In o (orders db) -> Order.delivery_crew o = Some crew ->
    belongs_to db crew "Delivery Crew".


(** What a framework function that returns or raises gives in the monad. *)
Definition lift {A} (o : Outcome A) : M A :=
  match o with
  | Ok a => ret a
  | Raise e => raise e
  end.

(** A database for the examples: two users, the second one in the delivery
    crew, two menu items, and the cart of the first user with both. *)
Definition sample_db : DB :=
  {| users := [ {| User.id := 1; User.username := "ann" |};
                {| User.id := 2; User.username := "bob" |} ];
     groups := [ {| Group.id := 1; Group.name := "Manager" |};
                 {| Group.id := 2; Group.name := "Delivery Crew" |} ];
     user_groups := [ (2, 2) ];
     categories := [ {| Category.id := 1; Category.slug := "mains";
                        Category.title := "Mains" |} ];
     menu_items := [ {| MenuItem.id := 10; MenuItem.title := "soup";
                        MenuItem.price := 450; MenuItem.featured := false;
                        MenuItem.category := 1 |};
                     {| MenuItem.id := 11; MenuItem.title := "cake";
                        MenuItem.price := 300; MenuItem.featured := true;
                        MenuItem.category := 1 |} ];
     carts := [ {| Cart.id := 1; Cart.user := 1 |} ];
     cart_items := [ {| CartItem.id := 1; CartItem.user := 1;
                        CartItem.cart := 1; CartItem.menu_item := 10;
                        CartItem.quantity := 2 |};
                     {| CartItem.id := 2; CartItem.user := 1;
                        CartItem.cart := 1; CartItem.menu_item := 11;
                        CartItem.quantity := 3 |} ];
     orders := [ {| Order.id := 1; Order.user := 2;
                    Order.delivery_crew := None; Order.status := true;
                    Order.date := 20240101 |} ];
     order_items := [ {| OrderItem.id := 1; OrderItem.order := 1;
                         OrderItem.menu_item := 10; OrderItem.quantity := 1;
                         OrderItem.unit_price := 400;
                         OrderItem.price := 400 |};
                      {| OrderItem.id := 2; OrderItem.order := 1;
                         OrderItem.menu_item := 11; OrderItem.quantity := 2;
                         OrderItem.unit_price := 300;
                         OrderItem.price := 600 |} ] |}.

(** The validated data of the first user's order, and the order that the
    sample database gives it on the day [20240102]. *)
Definition sample_order_attrs : OrderAttrs.t :=
  {| OrderAttrs.user := Some 1;
     OrderAttrs.delivery_crew := None;
     OrderAttrs.status := None |}.

Definition sample_new_order : Order.t :=
  {| Order.id := 2; Order.user := 1; Order.delivery_crew := None;
     Order.status := false; Order.date := 20240102 |}.

(** The sample database with a manager, the third user, and with a second
    order, of the first user, that the second user delivers. *)
Definition staffed_db : DB :=
  {| users := users sample_db ++ [ {| User.id := 3; User.username := "mia" |} ];
     groups := groups sample_db;
     user_groups := [ (2, 2); (3, 1) ];
     categories := categories sample_db;
     menu_items := menu_items sample_db;
     carts := carts sample_db;
     cart_items := cart_items sample_db;
     orders := orders sample_db
               ++ [ {| Order.id := 2; Order.user := 1;
                       Order.delivery_crew := Some 2; Order.status := false;
                       Order.date := 20240102 |} ];
     order_items := order_items sample_db |}.

(** The sample database once the second user has put four soups in a
    cart. *)
Definition two_carts_db : DB :=
  set_cart_items
    (cart_items sample_db
     ++ [ {| CartItem.id := 3; CartItem.user := 2; CartItem.cart := 2;
             CartItem.menu_item := 10; CartItem.quantity := 4 |} ])
    (set_carts (carts sample_db ++ [ {| Cart.id := 2; Cart.user := 2 |} ])
       sample_db).

(** The slugs of the two group names of the application, as [slugify]
    gives them, for the examples. *)
Definition sample_slugify (name : string) : string :=
  if String.eqb name "Delivery Crew" then "delivery-crew"
  else if String.eqb name "Manager" then "manager"
  else name.

(** * Properties *)

(** ** Tactics and lemmas on the monad *)

Ltac run := unfold bind, ret, raise, get, modify, dict_get, lift.

Tactic Notation "run" "in" hyp(H) :=
  unfold bind, ret, raise, get, modify, dict_get, lift in H.

Lemma bind_Ok {A B} (c : M A) (k : A -> M B) db b db' :
  bind c k db = (Ok b, db') ->
  exists a db1, c db = (Ok a, db1) /\ k a db1 = (Ok b, db').
Proof.
  unfold bind. destruct (c db) as [[a | e] db1]; intros H.
  - now exists a, db1.
  - discriminate.
Qed.


Lemma find_some_id {A} (key : A -> Z) (pk : Z) (l : list A) (a : A) :
  find (fun x => key x =? pk) l = Some a -> In a l /\ key a = pk.
Proof.
  intros H. apply find_some in H. destruct H as [Hin Heq].
  split; [assumption | now apply Z.eqb_eq].
Qed.

Lemma find_unique_id {A} (key : A -> Z) (l : list A) (a : A) :
  NoDup (map key l) -> In a l ->
  find (fun x => key x =? key a) l = Some a.
Proof.
  induction l as [| x l IH]; intros Hnd Hin; [contradiction |].
  simpl in *. inversion Hnd as [| ? ? Hnotin Hnd']; subst.
  destruct Hin as [-> | Hin].
  - now rewrite Z.eqb_refl.
  - destruct (Z.eqb_spec (key x) (key a)) as [Heq | Hne].
    + exfalso. apply Hnotin. rewrite Heq. now apply in_map.
    + now apply IH.
Qed.

(** ** Totals (C3) *)

Lemma order_total_loop (items : list OrderItem.t) (acc : Decimal) (db : DB) :
  for_loop (fun total item => ret (total + OrderItem.price item)) acc items db
  = (Ok (acc + total_of (map OrderItem.price items)), db).
Proof.
  revert acc. induction items as [| i items IH]; intros acc; simpl.
  - unfold ret. now rewrite Z.add_0_r.
  - unfold bind at 1. unfold ret at 1. rewrite IH.
    now rewrite Z.add_assoc.
Qed.

Lemma cart_total_loop (price_of : CartItem.t -> Decimal)
  (items : list CartItem.t) (acc : Decimal) (db : DB) :
  NoDup (map MenuItem.id (menu_items db)) ->
  (forall i, In i items ->
     exists m, In m (menu_items db)
               /\ MenuItem.id m = CartItem.menu_item i
               /\ MenuItem.price m = price_of i) ->
  for_loop
    (fun total item =>
       m <- ORM.menu_item_of (CartItem.menu_item item) ;;
       ret (total + MenuItem.price m * CartItem.quantity item))
    acc items db
  = (Ok (acc + total_of (map (fun i => price_of i * CartItem.quantity i) items)),
     db).
Proof.
  intros Hnd. revert acc.
  induction items as [| i items IH]; intros acc Hfk; simpl.
  - unfold ret. now rewrite Z.add_0_r.
  - destruct (Hfk i (or_introl eq_refl)) as (m & Hin & Hid & Hprice).
    unfold bind at 1. unfold ORM.menu_item_of. run.
    rewrite <- Hid, (find_unique_id MenuItem.id _ m Hnd Hin).
    rewrite IH by (intros j Hj; apply Hfk; now right).
    now rewrite Hprice, Z.add_assoc.
Qed.

(** C3. The total of an order is the sum of the [price] fields of its order
    items; the total of a cart is the sum, over its cart items, of the price
    of the menu item times the quantity, where [price_of] gives for each cart
    item the price of its menu item in the database (the menu items have
    distinct primary keys and every cart item of the cart refers to one).
    Both are computed from the database when the field is rendered
    ([render] is the rendering of a decimal by the framework), and reading
    them leaves the database as it is. *)
Theorem totals_are_sums_computed_on_read
  (render : Decimal -> Outcome string) (db : DB) :
  (forall order : Order.t,
     let sum := total_of (map OrderItem.price (ORM.Order_order_items db order)) in
     OrderSerializer.get_total order db = (Ok sum, db)
     /\ SerializerMethodDecimalField.to_representation render
          OrderSerializer.get_total order db
        = lift (render sum) db)
  /\
  (forall (cart : Cart.t) (price_of : CartItem.t -> Decimal),
     NoDup (map MenuItem.id (menu_items db)) ->
     (forall i, In i (ORM.Cart_cart_items db cart) ->
        exists m, In m (menu_items db)
                  /\ MenuItem.id m = CartItem.menu_item i
                  /\ MenuItem.price m = price_of i) ->
     let sum :=
       total_of (map (fun i => price_of i * CartItem.quantity i)
                   (ORM.Cart_cart_items db cart)) in
     CartSerializer.get_total cart db = (Ok sum, db)
     /\ SerializerMethodDecimalField.to_representation render
          CartSerializer.get_total cart db
        = lift (render sum) db).
Proof.
  split.
  - intros order sum.
    assert (Hget : OrderSerializer.get_total order db = (Ok sum, db)).
    { unfold OrderSerializer.get_total, bind at 1, get.
      rewrite order_total_loop. reflexivity. }
    split; [exact Hget |].
    unfold SerializerMethodDecimalField.to_representation, bind.
    rewrite Hget. destruct (render sum); reflexivity.
  - intros cart price_of Hnd Hfk sum.
    assert (Hget : CartSerializer.get_total cart db = (Ok sum, db)).
    { unfold CartSerializer.get_total, bind at 1, get.
      rewrite (cart_total_loop price_of) by assumption. reflexivity. }
    split; [exact Hget |].
    unfold SerializerMethodDecimalField.to_representation, bind.
    rewrite Hget. destruct (render sum); reflexivity.
Qed.

(** On the sample database the cart of the first user totals 18.00. *)
Lemma totals_are_sums_witness :
  NoDup (map MenuItem.id (menu_items sample_db))
  /\ CartSerializer.get_total {| Cart.id := 1; Cart.user := 1 |} sample_db
     = (Ok 1800, sample_db).
Proof.
  assert (Hnd : NoDup (map MenuItem.id (menu_items sample_db))).
  { simpl. repeat constructor; simpl; intuition discriminate. }
  split; [exact Hnd |].
  refine (proj1 (proj2 (totals_are_sums_computed_on_read (fun _ => Ok "") sample_db)
                   {| Cart.id := 1; Cart.user := 1 |}
                   (fun i => if CartItem.menu_item i =? 10 then 450 else 300)
                   Hnd _)).
  simpl. intros i [<- | [<- | []]]; simpl.
  - eexists. split; [left; reflexivity | split; reflexivity].
  - eexists. split; [right; left; reflexivity | split; reflexivity].
Defined.

(** ** Order creation (C1, C2, C10) *)

Lemma find_none_filter {A} (f g : A -> bool) (l : list A) :
  (forall x, In x l -> f x = false) -> find f (filter g l) = None.
Proof.
  intros H. destruct (find f (filter g l)) as [a |] eqn:Hfind; [| reflexivity].
  apply find_some in Hfind. destruct Hfind as [Hin Hf].
  apply filter_In in Hin. rewrite (H a (proj1 Hin)) in Hf. discriminate.
Qed.

(** With one cart per user at most, the user has no cart once the cart that
    [user.cart] gives is deleted. *)
Lemma User_cart_deleted (l : list Cart.t) (user : Z) (cart : Cart.t) :
  NoDup (map Cart.user l) ->
  find (fun c => Cart.user c =? user) l = Some cart ->
  find (fun c => Cart.user c =? user)
    (filter (fun c => negb (Cart.id c =? Cart.id cart)) l) = None.
Proof.
  induction l as [| c l IH]; intros Hnd Hfind; [discriminate |].
  simpl in Hnd. inversion Hnd as [| ? ? Hnotin Hnd']; subst.
  simpl in Hfind. destruct (Z.eqb_spec (Cart.user c) user) as [Hu | Hu].
  - inversion Hfind; subst c. simpl. rewrite Z.eqb_refl. simpl.
    apply find_none_filter. intros x Hx.
    apply Z.eqb_neq. intros Heq. apply Hnotin.
    rewrite Hu, <- Heq. now apply in_map.
  - simpl. destruct (negb (Cart.id c =? Cart.id cart)); simpl.
    + apply Z.eqb_neq in Hu. rewrite Hu. now apply IH.
    + now apply IH.
Qed.

Lemma set_order_items_id (db : DB) :
  set_order_items (order_items db ++ []) db = db.
Proof. destruct db. unfold set_order_items. simpl. now rewrite app_nil_r. Qed.

(** The loop of [OrderSerializer.create]: when it ends without raising, it
    has added one order item per cart item, in the same order, and has
    written nothing else. *)
Lemma order_items_loop (order : Order.t) (items : list CartItem.t) :
  forall dbA dbB,
    for_each
      (fun item =>
         m <- ORM.menu_item_of (CartItem.menu_item item) ;;
         ORM.OrderItem_objects_create
           (Order.id order) (MenuItem.id m) (CartItem.quantity item)
           (MenuItem.price m) (MenuItem.price m * CartItem.quantity item) ;;;
         ret tt)
      items dbA = (Ok tt, dbB) ->
    exists new_items,
      dbB = set_order_items (order_items dbA ++ new_items) dbA
      /\ Forall2 (snapshot_of dbA order) items new_items.
Proof.
  induction items as [| item items IH]; intros dbA dbB H; simpl in H.
  - unfold ret in H. inversion H; subst. exists [].
    split; [now rewrite set_order_items_id | constructor].
  - apply bind_Ok in H as (? & db1 & Hbody & Hrest).
    apply bind_Ok in Hbody as (m & db2 & Hm & Hcreate).
    unfold ORM.menu_item_of in Hm. run in Hm.
    destruct (find _ (menu_items dbA)) as [m' |] eqn:Hfind;
      inversion Hm; subst m' db2; clear Hm.
    apply find_some_id in Hfind as [Hin Hid].
    apply bind_Ok in Hcreate as (oi & db3 & Hoi & Hret).
    unfold ret in Hret. inversion Hret; subst db3; clear Hret.
    unfold ORM.OrderItem_objects_create in Hoi. run in Hoi.
    destruct (existsb _ (order_items dbA)); [discriminate |].
    inversion Hoi; subst oi db1; clear Hoi.
    apply IH in Hrest as (new_items & HdbB & Hall).
    eexists (_ :: new_items). split.
    + rewrite HdbB. unfold set_order_items. simpl.
      now rewrite <- app_assoc.
    + constructor; [| exact Hall].
      unfold snapshot_of. simpl.
      repeat split; try assumption. exists m. now repeat split.
Qed.

Lemma NoDup_map_eq {A} (key : A -> Z) (l : list A) (a b : A) :
  NoDup (map key l) -> In a l -> In b l -> key a = key b -> a = b.
Proof.
  induction l as [| x l IH]; intros Hnd Ha Hb Heq; [contradiction |].
  simpl in Hnd. inversion Hnd as [| ? ? Hnotin Hnd']; subst.
  destruct Ha as [-> | Ha], Hb as [-> | Hb]; try reflexivity.
  - exfalso. apply Hnotin. rewrite Heq. now apply in_map.
  - exfalso. apply Hnotin. rewrite <- Heq. now apply in_map.
  - now apply IH.
Qed.

Lemma filter_nil {A} (f : A -> bool) (l : list A) :
  (forall x, In x l -> f x = false) -> filter f l = [].
Proof.
  intros H. destruct (filter f l) as [| a l'] eqn:Hf; [reflexivity |].
  assert (Hin : In a (filter f l)) by (rewrite Hf; now left).
  apply filter_In in Hin. rewrite (H a (proj1 Hin)) in Hin.
  destruct Hin; discriminate.
Qed.

(** What [OrderSerializer.create] has done when it returns: the database
    [db'] is [db] with the order, the new order items, and without the cart
    and its cart items. *)
Lemma OrderSerializer_create_Ok (today : Z) (validated_data : OrderAttrs.t)
  (user : Z) (db db' : DB) (order : Order.t) :
  OrderAttrs.user validated_data = Some user ->
  OrderSerializer.create today validated_data db = (Ok order, db') ->
  exists new_items cart,
    Forall2 (snapshot_of db order) (ORM.User_cart_items db user) new_items
    /\ ORM.User_cart db user = Some cart
    /\ order =
         {| Order.id := ORM.next_id (map Order.id (orders db));
            Order.user := user;
            Order.delivery_crew :=
              or_else (OrderAttrs.delivery_crew validated_data) None;
            Order.status := or_else (OrderAttrs.status validated_data) false;
            Order.date := today |}
    /\ db' =
         set_carts
           (filter (fun c => negb (Cart.id c =? Cart.id cart)) (carts db))
           (set_cart_items
              (filter (fun i => negb (CartItem.cart i =? Cart.id cart))
                 (cart_items db))
              (set_order_items (order_items db ++ new_items)
                 (set_orders (orders db ++ [order]) db))).
Proof.
  intros Huser H. unfold OrderSerializer.create in H.
  apply bind_Ok in H as (order' & db1 & Horder & H).
  unfold ORM.Order_objects_create in Horder. rewrite Huser in Horder.
  run in Horder. inversion Horder; subst order' db1; clear Horder.
  rewrite Huser in H.
  apply bind_Ok in H as (user' & db2 & Hget & H).
  run in Hget. inversion Hget; subst user' db2; clear Hget.
  apply bind_Ok in H as (dbl & db3 & Hget & H).
  run in Hget. inversion Hget; subst dbl db3; clear Hget.
  apply bind_Ok in H as ([] & db4 & Hloop & H).
  apply order_items_loop in Hloop as (new_items & Hdb4 & Hall).
  apply bind_Ok in H as (dbd & db5 & Hget & H).
  run in Hget. inversion Hget; subst dbd db5; clear Hget.
  apply bind_Ok in H as (? & db6 & Hdel & H).
  unfold ret in H. inversion H; subst order db6; clear H.
  rewrite Hdb4 in Hdel. unfold ORM.User_cart in Hdel. simpl in Hdel.
  destruct (find _ (carts db)) as [cart |] eqn:Hcart; [| discriminate].
  unfold ORM.Cart_delete in Hdel. run in Hdel. simpl in Hdel.
  inversion Hdel; subst db'; clear Hdel.
  exists new_items, cart.
  split; [exact Hall |]. split; [exact Hcart |]. split; reflexivity.
Qed.

Lemma own_cart_is_user_cart (db : DB) (user : Z) (cart : Cart.t)
  (i : CartItem.t) :
  NoDup (map Cart.user (carts db)) ->
  cart_items_own_cart db ->
  ORM.User_cart db user = Some cart ->
  In i (cart_items db) -> CartItem.user i = user ->
  CartItem.cart i = Cart.id cart.
Proof.
  intros Hnd Hown Hcart Hin Hu.
  destruct (Hown i Hin) as (c & Hc & Hid & Hcu).
  apply find_some in Hcart as [Hcin Hcuser]. apply Z.eqb_eq in Hcuser.
  assert (c = cart) as ->; [| now symmetry].
  apply (NoDup_map_eq Cart.user (carts db)); try assumption. congruence.
Qed.

(** C1. When [OrderSerializer.create] returns an order for the user, the
    order items of the database are the former ones followed by exactly one
    new order item per cart item of the user, in the same order; each new
    order item belongs to the order and carries the menu item and the
    quantity of its cart item, the price of that menu item in the database
    as [unit_price], and that price times the quantity as [price]. The cart
    of the user is no longer in the table of carts and no cart item of that
    cart is left; where the table has one cart per user at most (the
    one-to-one field), the user has no cart afterwards, and where moreover
    every cart item sits in the cart of its user, the user has no cart item
    afterwards. *)
Theorem order_creation_snapshots_cart_then_deletes_it
  (today : Z) (validated_data : OrderAttrs.t) (user : Z)
  (db db' : DB) (order : Order.t) :
  OrderAttrs.user validated_data = Some user ->
  OrderSerializer.create today validated_data db = (Ok order, db') ->
  exists new_items cart,
    order_items db' = order_items db ++ new_items
    /\ Forall2 (snapshot_of db order) (ORM.User_cart_items db user) new_items
    /\ List.length new_items = List.length (ORM.User_cart_items db user)
    /\ orders db' = orders db ++ [order]
    /\ Order.user order = user
    /\ ORM.User_cart db user = Some cart
    /\ ~ In cart (carts db')
    /\ ORM.Cart_cart_items db' cart = []
    /\ (NoDup (map Cart.user (carts db)) -> ORM.User_cart db' user = None)
    /\ (NoDup (map Cart.user (carts db)) -> cart_items_own_cart db ->
        ORM.User_cart_items db' user = []).
Proof.
  intros Huser H.
  destruct (OrderSerializer_create_Ok _ _ _ _ _ _ Huser H)
    as (new_items & cart & Hall & Hcart & Horder & Hdb').
  exists new_items, cart. subst db'. simpl.
  split; [reflexivity |]. split; [exact Hall |].
  split; [symmetry; exact (Forall2_length Hall) |].
  split; [reflexivity |]. split; [now rewrite Horder |].
  split; [exact Hcart |]. split; [| split; [| split]].
  - intros Hin. apply filter_In in Hin as [_ Hne].
    now rewrite Z.eqb_refl in Hne.
  - unfold ORM.Cart_cart_items. simpl. apply filter_nil.
    intros i Hi. apply filter_In in Hi as [_ Hne].
    now apply negb_true_iff in Hne.
  - intros Hnd. unfold ORM.User_cart. simpl.
    now apply User_cart_deleted.
  - intros Hnd Hown. unfold ORM.User_cart_items. simpl. apply filter_nil.
    intros i Hi. apply filter_In in Hi as [Hin Hne].
    apply Z.eqb_neq. intros Hu.
    rewrite (own_cart_is_user_cart db user cart i Hnd Hown Hcart Hin Hu) in Hne.
    now rewrite Z.eqb_refl in Hne.
Qed.

(** A [POST] on the orders, step by step: the serializer of a [POST] has
    neither [delivery_crew] nor [status], so that the only field written
    from the request is the hidden [user]. *)
Lemma OrderViewSet_create_unfold (today user : Z) (data : OrderData.t)
  (db : DB) :
  OrderViewSet.create today user data db
  = match ORM.User_cart_items db user with
    | [] =>
        (Raise (ValidationError
                  (DetailDict
                     [("user",
                       ["Cannot create order for user with an empty cart"])])),
         db)
    | _ :: _ =>
        OrderSerializer.create today
          {| OrderAttrs.user := Some user;
             OrderAttrs.delivery_crew := None;
             OrderAttrs.status := None |} db
    end.
Proof.
  unfold OrderViewSet.create, OrderViewSet.get_serializer_class.
  unfold OrderSerializer.to_internal_value, OrderSerializer.validate_user.
  unfold validated. run. simpl.
  destruct (ORM.User_cart_items db user); reflexivity.
Qed.

(** C2. For a user without cart items, [validate_user] raises the validation
    error of the empty cart, and the [POST] on the orders raises it under
    the key [user] and returns the database as it was: no order and no
    order item has been created. *)
Theorem empty_cart_order_is_rejected
  (today user : Z) (data : OrderData.t) (db : DB) :
  ORM.User_cart_items db user = [] ->
  OrderSerializer.validate_user user db
  = (Raise (ValidationError
              (DetailList ["Cannot create order for user with an empty cart"])),
     db)
  /\ OrderViewSet.create today user data db
     = (Raise (ValidationError
                 (DetailDict
                    [("user",
                      ["Cannot create order for user with an empty cart"])])),
        db).
Proof.
  intros Hempty. split.
  - unfold OrderSerializer.validate_user. run. now rewrite Hempty.
  - rewrite OrderViewSet_create_unfold. now rewrite Hempty.
Qed.

(** The second user of the sample database has no cart item, and the order
    is refused whatever the request says. *)
Lemma empty_cart_order_witness :
  ORM.User_cart_items sample_db 2 = []
  /\ OrderViewSet.create 20240102 2
       {| OrderData.delivery_crew := Some (Some 2);
          OrderData.status := Some true |} sample_db
     = (Raise (ValidationError
                 (DetailDict
                    [("user",
                      ["Cannot create order for user with an empty cart"])])),
        sample_db).
Proof.
  split; [reflexivity |].
  apply (empty_cart_order_is_rejected 20240102 2 _ sample_db).
  reflexivity.
Defined.

(** C10. In a [POST] on the orders the serializer has lost the fields
    [delivery_crew] and [status]; two requests of the same user on the same
    database give the same outcome and the same database whatever their
    bodies, and an order that is created has no delivery crew and the status
    false, in the answer and in the table. *)
Theorem post_order_ignores_delivery_crew_and_status
  (today user : Z) (db : DB) :
  (forall hidden_fields db1,
     OrderViewSet.get_serializer_class "POST" user db = (Ok hidden_fields, db1) ->
     let fields :=
       HiddenFieldSerializerMixin.get_fields hidden_fields
         OrderSerializer.Meta_fields in
     db1 = db /\ ~ In "delivery_crew" fields /\ ~ In "status" fields
     /\ In "user" fields)
  /\ (forall data1 data2 : OrderData.t,
        OrderViewSet.create today user data1 db
        = OrderViewSet.create today user data2 db)
  /\ (forall (data : OrderData.t) (order : Order.t) (db' : DB),
        OrderViewSet.create today user data db = (Ok order, db') ->
        Order.delivery_crew order = None /\ Order.status order = false
        /\ In order (orders db')).
Proof.
  split; [| split].
  - intros hidden_fields db1 H fields.
    unfold OrderViewSet.get_serializer_class in H. run in H. simpl in H.
    inversion H; subst hidden_fields db1; clear H.
    subst fields. simpl.
    split; [reflexivity |].
    split; [| split]; [intuition discriminate .. | tauto].
  - intros data1 data2. now rewrite !OrderViewSet_create_unfold.
  - intros data order db' H. rewrite OrderViewSet_create_unfold in H.
    destruct (ORM.User_cart_items db user); [discriminate |].
    apply (OrderSerializer_create_Ok _ _ user) in H; [| reflexivity].
    destruct H as (new_items & cart & _ & _ & Horder & Hdb').
    subst db'. simpl. rewrite Horder at 1 2. simpl.
    split; [reflexivity |]. split; [reflexivity |].
    apply in_or_app. right. now left.
Qed.

(** On the sample database the order of the first user gets the two cart
    items, and the cart is gone. *)
Lemma order_creation_witness :
  let db' := snd (OrderSerializer.create 20240102 sample_order_attrs sample_db) in
  OrderAttrs.user sample_order_attrs = Some 1
  /\ OrderSerializer.create 20240102 sample_order_attrs sample_db
     = (Ok sample_new_order, db')
  /\ exists new_items cart,
       order_items db' = order_items sample_db ++ new_items
       /\ Forall2 (snapshot_of sample_db sample_new_order)
            (ORM.User_cart_items sample_db 1) new_items
       /\ List.length new_items = List.length (ORM.User_cart_items sample_db 1)
       /\ orders db' = orders sample_db ++ [sample_new_order]
       /\ Order.user sample_new_order = 1
       /\ ORM.User_cart sample_db 1 = Some cart
       /\ ~ In cart (carts db')
       /\ ORM.Cart_cart_items db' cart = []
       /\ (NoDup (map Cart.user (carts sample_db)) ->
           ORM.User_cart db' 1 = None)
       /\ (NoDup (map Cart.user (carts sample_db)) ->
           cart_items_own_cart sample_db ->
           ORM.User_cart_items db' 1 = []).
Proof.
  intros db'.
  split; [reflexivity |]. split; [reflexivity |].
  apply (order_creation_snapshots_cart_then_deletes_it
           20240102 sample_order_attrs 1 sample_db db' sample_new_order);
    reflexivity.
Defined.

(** A request that asks for a delivery crew and for the status true gets
    the same order as any other. *)
Lemma post_order_witness :
  let data := {| OrderData.delivery_crew := Some (Some 2);
                 OrderData.status := Some true |} in
  let db' := snd (OrderViewSet.create 20240102 1 data sample_db) in
  OrderViewSet.create 20240102 1 data sample_db = (Ok sample_new_order, db')
  /\ Order.delivery_crew sample_new_order = None
  /\ Order.status sample_new_order = false
  /\ In sample_new_order (orders db').
Proof.
  intros data db'.
  split; [reflexivity |].
  apply (proj2 (proj2 (post_order_ignores_delivery_crew_and_status
                         20240102 1 sample_db)) data sample_new_order db').
  reflexivity.
Defined.

(** With the fields left in the serializer, as in a [PUT] by a manager, the
    same body does reach the validated data: hiding the fields is what keeps
    the body of a [POST] out. *)
Lemma unhidden_fields_reach_validated_data :
  fst (OrderSerializer.to_internal_value OrderSerializer.Meta_fields None false 1
         {| OrderData.delivery_crew := Some (Some 2);
            OrderData.status := Some true |} sample_db)
  = Ok {| OrderAttrs.user := Some 1;
          OrderAttrs.delivery_crew := Some (Some 2);
          OrderAttrs.status := Some true |}.
Proof. reflexivity. Qed.

(** ** Cart items (C4, C6, C8) *)

(** The loop over the fields of the cart item serializer reads the database
    and writes nothing. It raises nothing but a [ValidationError], and the
    values that it lets through are those of the request, with a quantity
    not under [quantity_min_value] and a menu item that exists. *)
Lemma CartItemSerializer_to_internal_value_spec (partial : bool) (user : Z)
  (data : CartItemData.t) (db : DB) :
  match CartItemSerializer.to_internal_value partial user data db with
  | (Ok attrs, db') =>
      db' = db
      /\ CartItemAttrs.user attrs = (if partial then None else Some user)
      /\ CartItemAttrs.menu_item_id attrs = CartItemData.menu_item_id data
      /\ CartItemAttrs.quantity attrs = CartItemData.quantity data
      /\ (forall q, CartItemData.quantity data = Some q -> 1 <= q)
      /\ (partial = false ->
          CartItemData.menu_item_id data <> None
          /\ CartItemData.quantity data <> None)
  | (Raise e, db') => db' = db /\ exists detail, e = ValidationError detail
  end.
Proof.
  unfold CartItemSerializer.to_internal_value, IntegerField,
    CartItemSerializer.validate_menu_item_id, validated,
    CartItemSerializer.quantity_min_value.
  run.
  destruct data as [[m |] [q |]]; simpl;
    destruct partial; simpl;
    try destruct (existsb _ (menu_items db)); simpl;
    try destruct (Z.ltb_spec q 1); simpl;
    repeat split; eauto; try discriminate;
    try (intros ? [= <-]; lia).
Qed.

(** The validator of the pair (user, menu item) reads the database and
    writes nothing; it raises nothing but a [ValidationError], and it raises
    when another cart item has the pair. *)
Lemma UniqueTogetherValidator_spec (instance : option CartItem.t)
  (attrs : CartItemAttrs.t) (db : DB) :
  match run_validators (CartItemSerializer.UniqueTogetherValidator instance attrs)
          db with
  | (Ok attrs', db') =>
      db' = db
      /\ CartItemAttrs.quantity attrs' = CartItemAttrs.quantity attrs
      /\ (instance = None -> attrs' = attrs)
      /\ (forall i, instance = Some i ->
            CartItemAttrs.user attrs'
            = Some (or_else (CartItemAttrs.user attrs) (CartItem.user i))
            /\ CartItemAttrs.menu_item_id attrs'
               = Some (or_else (CartItemAttrs.menu_item_id attrs)
                         (CartItem.menu_item i)))
      /\ exists user menu_item,
           CartItemAttrs.user attrs' = Some user
           /\ CartItemAttrs.menu_item_id attrs' = Some menu_item
           /\ ORM.CartItem_same_pair db user menu_item
                (option_map CartItem.id instance) = []
  | (Raise e, db') => db' = db /\ exists detail, e = ValidationError detail
  end.
Proof.
  unfold run_validators, CartItemSerializer.UniqueTogetherValidator. run.
  destruct instance as [i |]; simpl.
  - destruct (ORM.CartItem_same_pair db _ _ (Some (CartItem.id i))) eqn:Hpair;
      simpl; [| eauto].
    split; [reflexivity |]. split; [reflexivity |].
    split; [discriminate |].
    split; [intros i' [= <-]; split; reflexivity |].
    eauto.
  - destruct attrs as [[u |] [m |] q]; simpl; eauto.
    destruct (ORM.CartItem_same_pair db u m None) eqn:Hpair; simpl; [| eauto].
    split; [reflexivity |]. split; [reflexivity |].
    split; [reflexivity |]. split; [discriminate |].
    eauto.
Qed.

Lemma CartItemSerializer_run_validation_spec (instance : option CartItem.t)
  (partial : bool) (user : Z) (data : CartItemData.t) (db : DB) :
  match CartItemSerializer.run_validation instance partial user data db with
  | (Ok attrs, db') =>
      db' = db
      /\ CartItemAttrs.quantity attrs = CartItemData.quantity data
      /\ (forall q, CartItemData.quantity data = Some q -> 1 <= q)
      /\ (instance = None -> partial = false ->
          exists menu_item q,
            CartItemData.menu_item_id data = Some menu_item
            /\ CartItemData.quantity data = Some q
            /\ attrs = {| CartItemAttrs.user := Some user;
                          CartItemAttrs.menu_item_id := Some menu_item;
                          CartItemAttrs.quantity := Some q |}
            /\ ORM.CartItem_same_pair db user menu_item None = [])
      /\ (forall i, instance = Some i ->
            exists user' menu_item,
              CartItemAttrs.user attrs = Some user'
              /\ (user' = user \/ user' = CartItem.user i)
              /\ CartItemAttrs.menu_item_id attrs = Some menu_item
              /\ ORM.CartItem_same_pair db user' menu_item
                   (Some (CartItem.id i)) = [])
  | (Raise e, db') => db' = db /\ exists detail, e = ValidationError detail
  end.
Proof.
  unfold CartItemSerializer.run_validation, bind.
  pose proof (CartItemSerializer_to_internal_value_spec partial user data db)
    as Hfields.
  destruct (CartItemSerializer.to_internal_value partial user data db)
    as [[attrs | e] db1]; [| exact Hfields].
  destruct Hfields as (-> & Hu & Hm & Hq & Hmin & Hreq).
  pose proof (UniqueTogetherValidator_spec instance attrs db) as Hunique.
  destruct (run_validators _ db) as [[attrs' | e] db2]; [| exact Hunique].
  destruct Hunique as (-> & Hq' & Hnone & Hsome & user' & m' & Hu' & Hm' & Hpair).
  split; [reflexivity |]. split; [congruence |]. split; [exact Hmin |].
  split.
  - intros -> ->. specialize (Hnone eq_refl). subst attrs'.
    destruct (Hreq eq_refl) as [Hm0 Hq0].
    destruct (CartItemData.menu_item_id data) as [m |]; [| contradiction].
    destruct (CartItemData.quantity data) as [q |]; [| contradiction].
    exists m, q. simpl in *.
    assert (user' = user) by congruence. assert (m' = m) by congruence.
    subst. repeat split; try assumption.
    destruct attrs; simpl in *. congruence.
  - intros i ->. destruct (Hsome i eq_refl) as [Hui Hmi].
    exists user', m'. simpl in Hpair. repeat split; try assumption.
    rewrite Hu' in Hui. injection Hui as ->. rewrite Hu.
    destruct partial; simpl; auto.
Qed.

(** [in] and [=?] on the rows that [CartItem_same_pair] keeps. *)
Lemma In_CartItem_same_pair (db : DB) (i : CartItem.t) :
  In i (cart_items db) ->
  In i (ORM.CartItem_same_pair db (CartItem.user i) (CartItem.menu_item i) None).
Proof.
  intros Hin. apply filter_In. split; [assumption |].
  now rewrite !Z.eqb_refl.
Qed.

(** C4. When a cart item of the user for the menu item is in the table, the
    creation of a cart item for the same pair raises a validation error
    (whatever the quantity asked), and the database is as it was: the
    existing cart item is still there, unchanged. *)
Theorem duplicate_cart_item_is_rejected
  (user menu_item : Z) (data : CartItemData.t) (db : DB)
  (existing : CartItem.t) :
  In existing (cart_items db) ->
  CartItem.user existing = user ->
  CartItem.menu_item existing = menu_item ->
  CartItemData.menu_item_id data = Some menu_item ->
  exists detail db',
    CartItemViewSet.create user data db = (Raise (ValidationError detail), db')
    /\ db' = db /\ In existing (cart_items db').
Proof.
  intros Hin Hu Hm Hdata. unfold CartItemViewSet.create, bind.
  pose proof (CartItemSerializer_run_validation_spec None false user data db)
    as Hvalid.
  destruct (CartItemSerializer.run_validation None false user data db)
    as [[attrs | e] db1].
  - exfalso.
    destruct Hvalid as (_ & _ & _ & Hcreate & _).
    destruct (Hcreate eq_refl eq_refl) as (m & q & Hm' & _ & _ & Hpair).
    assert (m = menu_item) by congruence. subst m user menu_item.
    pose proof (In_CartItem_same_pair db existing Hin) as Habs.
    rewrite Hpair in Habs. contradiction.
  - destruct Hvalid as (-> & detail & ->). exists detail, db. auto.
Qed.

(** The first user of the sample database has the soup in the cart
    already. *)
Lemma duplicate_cart_item_witness :
  let existing := {| CartItem.id := 1; CartItem.user := 1; CartItem.cart := 1;
                     CartItem.menu_item := 10; CartItem.quantity := 2 |} in
  let data := {| CartItemData.menu_item_id := Some 10;
                 CartItemData.quantity := Some 5 |} in
  In existing (cart_items sample_db)
  /\ exists detail db',
       CartItemViewSet.create 1 data sample_db
       = (Raise (ValidationError detail), db')
       /\ db' = sample_db /\ In existing (cart_items db').
Proof.
  intros existing data.
  assert (Hin : In existing (cart_items sample_db)) by (left; reflexivity).
  split; [exact Hin |].
  exact (duplicate_cart_item_is_rejected 1 10 data sample_db existing
           Hin eq_refl eq_refl eq_refl).
Defined.

Lemma next_id_fresh (ids : list Z) (x : Z) : In x ids -> x < ORM.next_id ids.
Proof.
  unfold ORM.next_id. induction ids as [| y ids IH]; intros Hin; [contradiction |].
  cbn [fold_right]. destruct Hin as [-> | Hin]; [lia |].
  specialize (IH Hin). lia.
Qed.


Lemma find_app_none {A} (f : A -> bool) (l : list A) (x : A) :
  find f l = None -> f x = true -> find f (l ++ [x]) = Some x.
Proof.
  induction l as [| y l IH]; intros H Hx; simpl in *.
  - now rewrite Hx.
  - destruct (f y); [discriminate | now apply IH].
Qed.

(** What [CartItemSerializer.create] has done when it returns: the new cart
    item is the last row of its table, and it sits in the cart that
    [user.cart] gave or, when there was none, in a new cart of the user,
    the last row of the carts. *)
Lemma CartItemSerializer_create_Ok (user menu_item q : Z) (db db' : DB)
  (item : CartItem.t) :
  CartItemSerializer.create
    {| CartItemAttrs.user := Some user;
       CartItemAttrs.menu_item_id := Some menu_item;
       CartItemAttrs.quantity := Some q |} db = (Ok item, db') ->
  exists cart,
    item = {| CartItem.id := ORM.next_id (map CartItem.id (cart_items db));
              CartItem.user := user;
              CartItem.cart := Cart.id cart;
              CartItem.menu_item := menu_item;
              CartItem.quantity := q |}
    /\ cart_items db' = cart_items db ++ [item]
    /\ ((ORM.User_cart db user = Some cart /\ carts db' = carts db)
        \/ (ORM.User_cart db user = None
            /\ cart = {| Cart.id := ORM.next_id (map Cart.id (carts db));
                         Cart.user := user |}
            /\ carts db' = carts db ++ [cart])).
Proof.
  unfold CartItemSerializer.create. intros H.
  apply bind_Ok in H as (user' & db1 & Hget & H).
  run in Hget. simpl in Hget. inversion Hget; subst user' db1; clear Hget.
  apply bind_Ok in H as (dbg & db1 & Hget & H).
  run in Hget. inversion Hget; subst dbg db1; clear Hget.
  apply bind_Ok in H as (cart & db1 & Hcart & H).
  exists cart.
  unfold ORM.CartItem_objects_create in H. run in H. simpl in H.
  destruct (ORM.CartItem_same_pair db1 user menu_item None); [| discriminate].
  inversion H; subst item db'; clear H. simpl.
  destruct (ORM.User_cart db user) as [c |] eqn:Hfind.
  - run in Hcart. inversion Hcart; subst c db1; clear Hcart. auto.
  - unfold ORM.Cart_objects_create in Hcart. run in Hcart.
    destruct (existsb _ (carts db)); [discriminate |].
    inversion Hcart; subst cart db1; clear Hcart. simpl.
    split; [reflexivity |]. split; [reflexivity |]. right. auto.
Qed.


(** A [POST] on the cart items that returns: what the request held, and
    what has been written. *)
Lemma CartItemViewSet_create_Ok (user : Z) (data : CartItemData.t)
  (db db' : DB) (item : CartItem.t) :
  CartItemViewSet.create user data db = (Ok item, db') ->
  exists menu_item q cart,
    CartItemData.menu_item_id data = Some menu_item
    /\ CartItemData.quantity data = Some q
    /\ 1 <= q
    /\ item = {| CartItem.id := ORM.next_id (map CartItem.id (cart_items db));
                 CartItem.user := user;
                 CartItem.cart := Cart.id cart;
                 CartItem.menu_item := menu_item;
                 CartItem.quantity := q |}
    /\ cart_items db' = cart_items db ++ [item]
    /\ ((ORM.User_cart db user = Some cart /\ carts db' = carts db)
        \/ (ORM.User_cart db user = None
            /\ cart = {| Cart.id := ORM.next_id (map Cart.id (carts db));
                         Cart.user := user |}
            /\ carts db' = carts db ++ [cart])).
Proof.
  unfold CartItemViewSet.create. intros H.
  apply bind_Ok in H as (attrs & db1 & Hvalid & H).
  pose proof (CartItemSerializer_run_validation_spec None false user data db)
    as Hspec.
  rewrite Hvalid in Hspec.
  destruct Hspec as (-> & _ & Hmin & Hcreate & _).
  destruct (Hcreate eq_refl eq_refl) as (m & q & Hm & Hq & -> & _).
  apply CartItemSerializer_create_Ok in H as (cart & Hitem & Hitems & Hcart).
  exists m, q, cart. auto 10.
Qed.

(** A [PUT] or a [PATCH] on a cart item that returns: the row of the primary
    key has the values of the request where the request has one, and its own
    values elsewhere. *)
Lemma CartItemViewSet_update_Ok (user pk : Z) (partial : bool)
  (data : CartItemData.t) (db db' : DB) (item : CartItem.t) :
  CartItemViewSet.update user pk partial data db = (Ok item, db') ->
  exists instance,
    In instance (cart_items db)
    /\ CartItem.id instance = pk
    /\ CartItem.user instance = user
    /\ (forall q, CartItemData.quantity data = Some q -> 1 <= q)
    /\ CartItem.id item = pk
    /\ CartItem.user item = user
    /\ CartItem.cart item = CartItem.cart instance
    /\ CartItem.quantity item
       = or_else (CartItemData.quantity data) (CartItem.quantity instance)
    /\ cart_items db'
       = map (fun i => if CartItem.id i =? pk then item else i) (cart_items db)
    /\ carts db' = carts db.
Proof.
  unfold CartItemViewSet.update. intros H.
  apply bind_Ok in H as (instance & db1 & Hobj & H).
  unfold CartItemViewSet.get_object, CartItemViewSet.get_queryset in Hobj.
  run in Hobj.
  destruct (find _ (filter _ (cart_items db))) as [i |] eqn:Hfind;
    inversion Hobj; subst i db1; clear Hobj.
  apply find_some_id in Hfind as [Hin Hid].
  apply filter_In in Hin as [Hin Huser]. apply Z.eqb_eq in Huser.
  apply bind_Ok in H as (attrs & db1 & Hvalid & H).
  pose proof (CartItemSerializer_run_validation_spec (Some instance) partial
                user data db) as Hspec.
  rewrite Hvalid in Hspec.
  destruct Hspec as (-> & Hq & Hmin & _ & Hupdate).
  destruct (Hupdate instance eq_refl) as (u' & m' & Hu' & Hor & Hm' & Hpair).
  unfold CartItemSerializer.update, ORM.CartItem_save in H. run in H.
  simpl in H.
  destruct (ORM.CartItem_same_pair db _ _ _); [| discriminate].
  inversion H; subst item db'; clear H. simpl.
  exists instance. rewrite Hu', Hq, Hid. simpl.
  repeat split; try assumption.
  destruct Hor; congruence.
Qed.

(** C6. A cart item that the serializer has created has the quantity of the
    request, which is 1 at least. A cart item that it has updated has the
    quantity of the request when the request has one, which is 1 at least,
    and keeps its quantity otherwise; so that both operations keep the table
    of cart items free of quantities under 1. A request whose quantity is
    under 1 is refused by the validation of the serializer, in a creation as
    in an update, full or partial, with a validation error and the database
    as it was. *)
Theorem cart_item_quantity_is_at_least_one (user : Z) (db : DB) :
  (forall instance partial data q,
     CartItemData.quantity data = Some q -> q < 1 ->
     exists detail,
       CartItemSerializer.run_validation instance partial user data db
       = (Raise (ValidationError detail), db))
  /\ (forall data q,
        CartItemData.quantity data = Some q -> q < 1 ->
        exists detail,
          CartItemViewSet.create user data db
          = (Raise (ValidationError detail), db))
  /\ (forall data item db',
        CartItemViewSet.create user data db = (Ok item, db') ->
        1 <= CartItem.quantity item
        /\ CartItemData.quantity data = Some (CartItem.quantity item)
        /\ In item (cart_items db')
        /\ (Forall (fun i => 1 <= CartItem.quantity i) (cart_items db) ->
            Forall (fun i => 1 <= CartItem.quantity i) (cart_items db')))
  /\ (forall pk partial data item db',
        CartItemViewSet.update user pk partial data db = (Ok item, db') ->
        (forall q, CartItemData.quantity data = Some q ->
           CartItem.quantity item = q /\ 1 <= q)
        /\ (CartItemData.quantity data = None ->
            exists old, In old (cart_items db) /\ CartItem.id old = pk
                        /\ CartItem.quantity item = CartItem.quantity old)
        /\ In item (cart_items db')
        /\ (Forall (fun i => 1 <= CartItem.quantity i) (cart_items db) ->
            Forall (fun i => 1 <= CartItem.quantity i) (cart_items db'))).
Proof.
  assert (Hreject : forall instance partial data q,
             CartItemData.quantity data = Some q -> q < 1 ->
             exists detail,
               CartItemSerializer.run_validation instance partial user data db
               = (Raise (ValidationError detail), db)).
  { intros instance partial data q Hq Hlt.
    pose proof (CartItemSerializer_run_validation_spec instance partial user
                  data db) as Hspec.
    destruct (CartItemSerializer.run_validation instance partial user data db)
      as [[attrs | e] db1].
    - destruct Hspec as (_ & _ & Hmin & _). specialize (Hmin q Hq). lia.
    - destruct Hspec as (-> & detail & ->). now exists detail. }
  split; [exact Hreject |]. split; [| split].
  - intros data q Hq Hlt.
    destruct (Hreject None false data q Hq Hlt) as (detail & Hraise).
    exists detail. unfold CartItemViewSet.create, bind. now rewrite Hraise.
  - intros data item db' H.
    apply CartItemViewSet_create_Ok in H
      as (m & q & cart & _ & Hq & Hmin & Hitem & Hitems & _).
    assert (Hqi : CartItem.quantity item = q) by (now subst item).
    rewrite Hqi, Hitems. repeat split; try assumption.
    + apply in_or_app. right. now left.
    + intros Hall. apply Forall_app. split; [assumption |].
      constructor; [lia | constructor].
  - intros pk partial data item db' H.
    apply CartItemViewSet_update_Ok in H
      as (old & Hin & Hid & Hu & Hmin & Hid' & _ & _ & Hq & Hitems & _).
    split; [| split; [| split]].
    + intros q Hdata. rewrite Hdata in Hq. simpl in Hq. split; auto.
    + intros Hdata. rewrite Hdata in Hq. simpl in Hq. eauto.
    + rewrite Hitems. apply in_map_iff. exists old.
      split; [| assumption]. apply Z.eqb_eq in Hid. now rewrite Hid.
    + intros Hall. rewrite Hitems. apply Forall_map.
      rewrite Forall_forall in *. intros i Hi.
      destruct (CartItem.id i =? pk); [| now apply Hall].
      rewrite Hq. destruct (CartItemData.quantity data) as [q |]; simpl.
      * now apply Hmin.
      * now apply Hall.
Qed.

(** On the sample database: a quantity of 0 is refused; the second user gets
    a cart item of quantity 4; the partial update of the second cart item of
    the first user to the quantity 7 goes through. *)
Lemma cart_item_quantity_witness :
  let zero := {| CartItemData.menu_item_id := Some 10;
                 CartItemData.quantity := Some 0 |} in
  let four := {| CartItemData.menu_item_id := Some 10;
                 CartItemData.quantity := Some 4 |} in
  let seven := {| CartItemData.menu_item_id := None;
                  CartItemData.quantity := Some 7 |} in
  let created := {| CartItem.id := 3; CartItem.user := 2; CartItem.cart := 2;
                    CartItem.menu_item := 10; CartItem.quantity := 4 |} in
  let updated := {| CartItem.id := 2; CartItem.user := 1; CartItem.cart := 1;
                    CartItem.menu_item := 11; CartItem.quantity := 7 |} in
  (exists detail,
     CartItemViewSet.create 2 zero sample_db
     = (Raise (ValidationError detail), sample_db))
  /\ (fst (CartItemViewSet.create 2 four sample_db) = Ok created
      /\ 1 <= CartItem.quantity created)
  /\ (fst (CartItemViewSet.update 1 2 true seven sample_db) = Ok updated
      /\ CartItem.quantity updated = 7 /\ 1 <= 7).
Proof.
  intros zero four seven created updated.
  split; [| split].
  - exact (proj1 (proj2 (cart_item_quantity_is_at_least_one 2 sample_db))
             zero 0 eq_refl eq_refl).
  - split; [reflexivity |].
    exact (proj1 (proj1 (proj2 (proj2 (cart_item_quantity_is_at_least_one
                                          2 sample_db)))
                    four created
                    (snd (CartItemViewSet.create 2 four sample_db))
                    eq_refl)).
  - split; [reflexivity |].
    exact (proj1 (proj2 (proj2 (proj2 (cart_item_quantity_is_at_least_one
                                          1 sample_db)))
                    2 true seven updated
                    (snd (CartItemViewSet.update 1 2 true seven sample_db))
                    eq_refl)
             7 eq_refl).
Defined.

(** C8. A cart item that a [POST] on the cart items has created belongs to
    the user of the request and sits in the cart that [user.cart] gives
    afterwards, a cart of that user. When the user had no cart, that cart is
    a new row, the last of its table; when the user had one, it is that one
    and the table of carts is as it was. So the creation keeps the table
    such that every cart item sits in a cart of its own user. *)
Theorem cart_item_creation_attaches_cart_of_user
  (user : Z) (data : CartItemData.t) (db db' : DB) (item : CartItem.t) :
  CartItemViewSet.create user data db = (Ok item, db') ->
  CartItem.user item = user
  /\ In item (cart_items db')
  /\ (exists cart,
        In cart (carts db')
        /\ ORM.User_cart db' user = Some cart
        /\ Cart.user cart = CartItem.user item
        /\ CartItem.cart item = Cart.id cart)
  /\ (ORM.User_cart db user = None ->
      exists cart,
        ~ In cart (carts db)
        /\ (forall c, In c (carts db) -> Cart.id c <> Cart.id cart)
        /\ carts db' = carts db ++ [cart]
        /\ Cart.user cart = user
        /\ CartItem.cart item = Cart.id cart)
  /\ (forall cart,
        ORM.User_cart db user = Some cart ->
        carts db' = carts db /\ CartItem.cart item = Cart.id cart)
  /\ (cart_items_own_cart db -> cart_items_own_cart db').
Proof.
  intros H.
  apply CartItemViewSet_create_Ok in H
    as (m & q & cart & _ & _ & _ & Hitem & Hitems & Hcart).
  assert (Hfresh : forall c, In c (carts db) ->
            Cart.id c <> ORM.next_id (map Cart.id (carts db))).
  { intros c Hc. pose proof (next_id_fresh (map Cart.id (carts db)) (Cart.id c)
                               (in_map Cart.id _ _ Hc)). lia. }
  assert (Hin : In item (cart_items db'))
    by (rewrite Hitems; apply in_or_app; right; now left).
  assert (Hafter : In cart (carts db') /\ ORM.User_cart db' user = Some cart
                   /\ Cart.user cart = user).
  { destruct Hcart as [[Hfind Hcarts] | (Hfind & Hnew & Hcarts)].
    - unfold ORM.User_cart in *. rewrite Hcarts.
      pose proof (find_some _ _ Hfind) as [Hc Hu]. apply Z.eqb_eq in Hu. auto.
    - unfold ORM.User_cart in *. rewrite Hcarts. subst cart.
      split; [apply in_or_app; right; now left |].
      split; [| reflexivity].
      apply find_app_none; [assumption | apply Z.eqb_refl]. }
  destruct Hafter as (Hcin & Hfind' & Hcu).
  assert (Hu : CartItem.user item = user) by (now subst item).
  assert (Hc : CartItem.cart item = Cart.id cart) by (now subst item).
  split; [exact Hu |]. split; [exact Hin |].
  split; [exists cart; rewrite Hu; auto |].
  split; [| split].
  - intros Hnone.
    destruct Hcart as [[Hfind _] | (_ & Hnew & Hcarts)]; [congruence |].
    exists cart. repeat split; try assumption.
    + intros Habs. apply (Hfresh cart Habs). now subst cart.
    + intros c Hcdb. subst cart. simpl. now apply Hfresh.
  - intros cart0 Hsome.
    destruct Hcart as [[Hfind Hcarts] | (Hfind & _)]; [| congruence].
    assert (cart0 = cart) by congruence. subst cart0. auto.
  - intros Hown i Hi. rewrite Hitems in Hi.
    apply in_app_or in Hi as [Hi | [<- | []]].
    + destruct (Hown i Hi) as (c & Hcdb & Hid & Hcuser).
      exists c. repeat split; try assumption.
      destruct Hcart as [[_ ->] | (_ & _ & ->)]; [assumption |].
      apply in_or_app. now left.
    + exists cart. repeat split; auto. congruence.
Qed.

(** The second user of the sample database has no cart: the first cart item
    comes with a new cart. *)
Lemma cart_item_creation_witness :
  let data := {| CartItemData.menu_item_id := Some 10;
                 CartItemData.quantity := Some 4 |} in
  let item := {| CartItem.id := 3; CartItem.user := 2; CartItem.cart := 2;
                 CartItem.menu_item := 10; CartItem.quantity := 4 |} in
  let db' := snd (CartItemViewSet.create 2 data sample_db) in
  CartItemViewSet.create 2 data sample_db = (Ok item, db')
  /\ ORM.User_cart sample_db 2 = None
  /\ exists cart,
       ~ In cart (carts sample_db)
       /\ (forall c, In c (carts sample_db) -> Cart.id c <> Cart.id cart)
       /\ carts db' = carts sample_db ++ [cart]
       /\ Cart.user cart = 2
       /\ CartItem.cart item = Cart.id cart.
Proof.
  intros data item db'.
  split; [reflexivity |]. split; [reflexivity |].
  exact (proj1 (proj2 (proj2 (proj2
           (cart_item_creation_attaches_cart_of_user 2 data sample_db db' item
              eq_refl))))
           eq_refl).
Defined.

(** ** Delivery crew (C5) *)

Lemma User_in_group_iff (db : DB) (user : Z) (name : string) :
  ORM.User_in_group db user name = true <-> belongs_to db user name.
Proof.
  unfold ORM.User_in_group, belongs_to. rewrite existsb_exists.
  split.
  - intros (g & Hg & H). apply andb_true_iff in H as [Hname Hrow].
    apply String.eqb_eq in Hname. apply existsb_exists in Hrow.
    destruct Hrow as ([u gid] & Hin & H). simpl in H.
    apply andb_true_iff in H as [Hu Hgid].
    apply Z.eqb_eq in Hu. apply Z.eqb_eq in Hgid. subst u gid.
    exists g. auto.
  - intros (g & Hg & Hname & Hrow). exists g. split; [assumption |].
    apply andb_true_iff. split; [now apply String.eqb_eq |].
    apply existsb_exists. exists (user, Group.id g).
    split; [assumption |]. simpl. now rewrite !Z.eqb_refl.
Qed.

Lemma In_existsb_eqb (s : string) (l : list string) :
  In s l -> existsb (String.eqb s) l = true.
Proof.
  intros H. apply existsb_exists. exists s. split; [assumption |].
  apply String.eqb_refl.
Qed.

(** C5. [validate_delivery_crew] raises the validation error of the invalid
    delivery crew for a user who is not a member of the group "Delivery
    Crew", and returns the user for a member; it reads the database and
    writes nothing. A serializer that has the field [delivery_crew] refuses
    with a validation error, the database as it was, a request that names
    such a user. *)
Theorem delivery_crew_must_belong_to_delivery_crew (db : DB) (crew : Z) :
  (~ belongs_to db crew "Delivery Crew" ->
   OrderSerializer.validate_delivery_crew (Some crew) db
   = (Raise (ValidationError (DetailList ["Invalid delivery crew ID"])), db))
  /\ (belongs_to db crew "Delivery Crew" ->
      OrderSerializer.validate_delivery_crew (Some crew) db
      = (Ok (Some crew), db))
  /\ (forall fields instance partial user data,
        ~ belongs_to db crew "Delivery Crew" ->
        In "delivery_crew" fields ->
        OrderData.delivery_crew data = Some (Some crew) ->
        exists detail,
          OrderSerializer.to_internal_value fields instance partial user data db
          = (Raise (ValidationError detail), db)).
Proof.
  assert (Hno : ~ belongs_to db crew "Delivery Crew" ->
                ORM.User_in_group db crew "Delivery Crew" = false).
  { intros Hnot. apply not_true_is_false. intros H.
    now apply Hnot, User_in_group_iff. }
  split; [| split].
  - intros Hnot. unfold OrderSerializer.validate_delivery_crew. run.
    now rewrite (Hno Hnot).
  - intros Hin. apply User_in_group_iff in Hin.
    unfold OrderSerializer.validate_delivery_crew. run. now rewrite Hin.
  - intros fields instance partial user data Hnot Hfield Hdata.
    unfold OrderSerializer.to_internal_value. run.
    rewrite (In_existsb_eqb _ _ Hfield), Hdata.
    unfold validated, OrderSerializer.validate_user,
      OrderSerializer.validate_delivery_crew. run.
    destruct (existsb (String.eqb "user") fields), instance, partial;
      try destruct (ORM.User_cart_items db user);
      destruct (existsb _ (users db)); simpl;
      try rewrite (Hno Hnot); simpl; eauto.
Qed.

(** On the sample database the first user is not in the delivery crew and
    the second one is. *)
Lemma delivery_crew_witness :
  ~ belongs_to sample_db 1 "Delivery Crew"
  /\ belongs_to sample_db 2 "Delivery Crew"
  /\ OrderSerializer.validate_delivery_crew (Some 1) sample_db
     = (Raise (ValidationError (DetailList ["Invalid delivery crew ID"])),
        sample_db)
  /\ OrderSerializer.validate_delivery_crew (Some 2) sample_db
     = (Ok (Some 2), sample_db).
Proof.
  assert (H1 : ~ belongs_to sample_db 1 "Delivery Crew").
  { intros H. apply User_in_group_iff in H. discriminate. }
  assert (H2 : belongs_to sample_db 2 "Delivery Crew").
  { apply User_in_group_iff. reflexivity. }
  split; [exact H1 |]. split; [exact H2 |]. split.
  - exact (proj1 (delivery_crew_must_belong_to_delivery_crew sample_db 1) H1).
  - exact (proj1 (proj2 (delivery_crew_must_belong_to_delivery_crew sample_db 2))
             H2).
Defined.

(** ** Groups (C7) *)

Lemma find_first {A} (f : A -> bool) (l : list A) (x : A) :
  find f l = Some x ->
  exists before after,
    l = before ++ x :: after /\ forall y, In y before -> f y = false.
Proof.
  induction l as [| y l IH]; intros H; [discriminate |].
  simpl in H. destruct (f y) eqn:Hy.
  - inversion H; subst y. exists [], l. split; [reflexivity | contradiction].
  - destruct (IH H) as (before & after & -> & Hbefore).
    exists (y :: before), after. split; [reflexivity |].
    intros z [<- | Hz]; auto.
Qed.

Lemma find_none_iff {A} (f : A -> bool) (l : list A) :
  find f l = None <-> forall x, In x l -> f x = false.
Proof.
  split; [apply find_none |].
  intros H. destruct (find f l) as [x |] eqn:Hfind; [| reflexivity].
  apply find_some in Hfind as [Hin Hfx]. rewrite (H x Hin) in Hfx.
  discriminate.
Qed.

(** C7. [initialize_request] gives the first group of the table whose
    slugified name is the [group_name] of the URL, and leaves the database
    as it is; it finds one as soon as there is one. When no group has that
    slugified name it raises [Http404], and so does the whole request,
    before the permissions are looked at. The creation raises [Http404], the
    database as it was, for a username that no user has. *)
Theorem group_is_resolved_by_slug_or_404
  (slugify : string -> string) (has_permission : string -> Z -> DB -> bool)
  (db : DB) :
  (forall group_name group db',
     GroupUserViewSet.initialize_request slugify group_name db = (Ok group, db') ->
     db' = db
     /\ slugify (Group.name group) = group_name
     /\ exists before after,
          groups db = before ++ group :: after
          /\ forall g, In g before -> slugify (Group.name g) <> group_name)
  /\ (forall group_name g,
        In g (groups db) -> slugify (Group.name g) = group_name ->
        exists group,
          GroupUserViewSet.initialize_request slugify group_name db
          = (Ok group, db))
  /\ (forall group_name,
        (forall g, In g (groups db) -> slugify (Group.name g) <> group_name) ->
        GroupUserViewSet.initialize_request slugify group_name db
        = (Raise (Http404 "Group not found"), db)
        /\ forall user request_data,
             GroupUserViewSet.dispatch_create slugify has_permission user
               group_name request_data db
             = (Raise (Http404 "Group not found"), db))
  /\ (forall group request_data username,
        GroupUserViewSet.data_get "username" request_data = Some username ->
        (forall u, In u (users db) -> User.username u <> username) ->
        GroupUserViewSet.create group request_data db
        = (Raise (Http404 "No User matches the given query."), db)).
Proof.
  split; [| split; [| split]].
  - intros group_name group db' H.
    unfold GroupUserViewSet.initialize_request in H. run in H.
    destruct (find _ (groups db)) as [g |] eqn:Hfind;
      inversion H; subst g db'; clear H.
    split; [reflexivity |].
    pose proof (find_some _ _ Hfind) as [_ Hslug].
    apply String.eqb_eq in Hslug. split; [exact Hslug |].
    destruct (find_first _ _ _ Hfind) as (before & after & Heq & Hbefore).
    exists before, after. split; [exact Heq |].
    intros g Hg. apply String.eqb_neq. now apply Hbefore.
  - intros group_name g Hin Hslug.
    unfold GroupUserViewSet.initialize_request. run.
    destruct (find _ (groups db)) as [group |] eqn:Hfind; [eauto |].
    exfalso. apply find_none_iff with (x := g) in Hfind; [| assumption].
    apply String.eqb_neq in Hfind. contradiction.
  - intros group_name Hnone.
    assert (Hinit : GroupUserViewSet.initialize_request slugify group_name db
                    = (Raise (Http404 "Group not found"), db)).
    { unfold GroupUserViewSet.initialize_request. run.
      destruct (find _ (groups db)) as [g |] eqn:Hfind; [| reflexivity].
      exfalso. apply find_some in Hfind as [Hg Hslug].
      apply String.eqb_eq in Hslug. exact (Hnone g Hg Hslug). }
    split; [exact Hinit |].
    intros user request_data.
    unfold GroupUserViewSet.dispatch_create, bind. now rewrite Hinit.
  - intros group request_data username Hdata Hnone.
    unfold GroupUserViewSet.create. rewrite Hdata.
    unfold dict_get. run. cbv beta iota.
    destruct (find _ (users db)) as [u |] eqn:Hfind; [| reflexivity].
    exfalso. apply find_some in Hfind as [Hu Hname].
    apply String.eqb_eq in Hname. exact (Hnone u Hu Hname).
Qed.

(** On the sample database [delivery-crew] is the second group, no group is
    [cooks], and nobody is called [carl]. *)
Lemma group_is_resolved_witness :
  let crew := {| Group.id := 2; Group.name := "Delivery Crew" |} in
  (GroupUserViewSet.initialize_request sample_slugify "delivery-crew" sample_db
   = (Ok crew, sample_db)
   /\ sample_slugify (Group.name crew) = "delivery-crew")
  /\ GroupUserViewSet.dispatch_create sample_slugify (fun _ _ _ => true) 1
       "cooks" [("username", "ann")] sample_db
     = (Raise (Http404 "Group not found"), sample_db)
  /\ GroupUserViewSet.create crew [("username", "carl")] sample_db
     = (Raise (Http404 "No User matches the given query."), sample_db).
Proof.
  intros crew.
  pose proof (group_is_resolved_by_slug_or_404 sample_slugify
                (fun _ _ _ => true) sample_db) as (Hfound & _ & Hnone & Huser).
  split; [| split].
  - split; [reflexivity |].
    exact (proj1 (proj2 (Hfound "delivery-crew" crew sample_db eq_refl))).
  - apply Hnone. simpl.
    intros g [<- | [<- | []]]; discriminate.
  - apply (Huser crew _ "carl"); [reflexivity |]. simpl.
    intros u [<- | [<- | []]]; discriminate.
Defined.

(** ** Emptying the cart (C9) *)

(** C9. [destroy_all] answers 204 with no content in every case. It leaves
    the database as it is when the user has no cart; otherwise it deletes
    the cart that [user.cart] gives, with the cart items of that cart, and
    nothing else. Where the table has one cart per user at most (the
    one-to-one field), the user has no cart afterwards, so that running it a
    second time changes nothing and answers the same: twice is once. *)
Theorem destroy_all_is_idempotent (user : Z) (db : DB) :
  let no_content := {| status_code := HTTP_204_NO_CONTENT; data := [] |} in
  fst (CartItemViewSet.destroy_all user db) = Ok no_content
  /\ (ORM.User_cart db user = None ->
      CartItemViewSet.destroy_all user db = (Ok no_content, db))
  /\ (forall cart,
        ORM.User_cart db user = Some cart ->
        let db' := snd (CartItemViewSet.destroy_all user db) in
        carts db' = filter (fun c => negb (Cart.id c =? Cart.id cart)) (carts db)
        /\ cart_items db'
           = filter (fun i => negb (CartItem.cart i =? Cart.id cart))
               (cart_items db)
        /\ ~ In cart (carts db')
        /\ ORM.Cart_cart_items db' cart = []
        /\ orders db' = orders db /\ order_items db' = order_items db)
  /\ (NoDup (map Cart.user (carts db)) ->
      ORM.User_cart (snd (CartItemViewSet.destroy_all user db)) user = None
      /\ CartItemViewSet.destroy_all user
           (snd (CartItemViewSet.destroy_all user db))
         = CartItemViewSet.destroy_all user db).
Proof.
  intros no_content.
  assert (Hnone : forall d, ORM.User_cart d user = None ->
                    CartItemViewSet.destroy_all user d = (Ok no_content, d)).
  { intros d H. unfold CartItemViewSet.destroy_all. run. now rewrite H. }
  assert (Hsome : forall cart, ORM.User_cart db user = Some cart ->
            CartItemViewSet.destroy_all user db
            = (Ok no_content,
               set_carts
                 (filter (fun c => negb (Cart.id c =? Cart.id cart)) (carts db))
                 (set_cart_items
                    (filter (fun i => negb (CartItem.cart i =? Cart.id cart))
                       (cart_items db)) db))).
  { intros cart H. unfold CartItemViewSet.destroy_all, ORM.Cart_delete. run.
    now rewrite H. }
  split; [| split; [| split]].
  - destruct (ORM.User_cart db user) as [cart |] eqn:Hcart.
    + now rewrite (Hsome cart).
    + now rewrite Hnone.
  - exact (Hnone db).
  - intros cart Hcart db'. subst db'. rewrite (Hsome cart Hcart). simpl.
    split; [reflexivity |]. split; [reflexivity |].
    split; [| split; [| split; reflexivity]].
    + intros Hin. apply filter_In in Hin as [_ Hne].
      now rewrite Z.eqb_refl in Hne.
    + unfold ORM.Cart_cart_items. simpl. apply filter_nil.
      intros i Hi. apply filter_In in Hi as [_ Hne].
      now apply negb_true_iff in Hne.
  - intros Hnd.
    destruct (ORM.User_cart db user) as [cart |] eqn:Hcart.
    + rewrite (Hsome cart eq_refl). simpl.
      assert (Hgone : ORM.User_cart
                        (set_carts
                           (filter (fun c => negb (Cart.id c =? Cart.id cart))
                              (carts db))
                           (set_cart_items
                              (filter
                                 (fun i => negb (CartItem.cart i =? Cart.id cart))
                                 (cart_items db)) db)) user = None).
      { unfold ORM.User_cart. simpl. now apply User_cart_deleted. }
      split; [exact Hgone |]. now apply Hnone.
    + rewrite (Hnone db Hcart). simpl. split; [exact Hcart |]. now apply Hnone.
Qed.

(** On the sample database the first user has a cart and the second has
    none. *)
Lemma destroy_all_witness :
  let once := CartItemViewSet.destroy_all 1 sample_db in
  NoDup (map Cart.user (carts sample_db))
  /\ ORM.User_cart sample_db 2 = None
  /\ CartItemViewSet.destroy_all 2 sample_db
     = (Ok {| status_code := HTTP_204_NO_CONTENT; data := [] |}, sample_db)
  /\ carts (snd once) = [] /\ cart_items (snd once) = []
  /\ ORM.User_cart (snd once) 1 = None
  /\ CartItemViewSet.destroy_all 1 (snd once) = once.
Proof.
  intros once.
  assert (Hnd : NoDup (map Cart.user (carts sample_db))).
  { simpl. repeat constructor. simpl. tauto. }
  split; [exact Hnd |]. split; [reflexivity |].
  split; [exact (proj1 (proj2 (destroy_all_is_idempotent 2 sample_db)) eq_refl) |].
  split; [reflexivity |]. split; [reflexivity |].
  exact (proj2 (proj2 (proj2 (destroy_all_is_idempotent 1 sample_db))) Hnd).
Defined.

(** ** Order creation goes through on a consistent database *)

Lemma find_exists {A} (f : A -> bool) (l : list A) (x : A) :
  In x l -> f x = true -> exists y, find f l = Some y.
Proof.
  intros Hin Hfx. destruct (find f l) as [y |] eqn:Hfind; [eauto |].
  rewrite (proj1 (find_none_iff f l) Hfind x Hin) in Hfx. discriminate.
Qed.



(** ** The two invariants of the carts are kept by the operations *)

Lemma NoDup_map_filter {A} (key : A -> Z) (f : A -> bool) (l : list A) :
  NoDup (map key l) -> NoDup (map key (filter f l)).
Proof.
  induction l as [| x l IH]; intros Hnd; [constructor |].
  simpl in *. inversion Hnd as [| ? ? Hnotin Hnd']; subst.
  destruct (f x); [| now apply IH].
  simpl. constructor; [| now apply IH].
  intros Hin. apply Hnotin. apply in_map_iff in Hin as (y & Hy & Hin).
  apply filter_In in Hin as [Hin _]. rewrite <- Hy. now apply in_map.
Qed.

(** Deleting a cart with its cart items, as [cart.delete()] does. *)
Lemma Cart_delete_keeps_invariants (db : DB) (cart : Cart.t) :
  let db' :=
    set_carts (filter (fun c => negb (Cart.id c =? Cart.id cart)) (carts db))
      (set_cart_items
         (filter (fun i => negb (CartItem.cart i =? Cart.id cart))
            (cart_items db)) db) in
  (NoDup (map Cart.user (carts db)) -> NoDup (map Cart.user (carts db')))
  /\ (cart_items_own_cart db -> cart_items_own_cart db').
Proof.
  intros db'. subst db'. simpl. split.
  - apply NoDup_map_filter.
  - intros Hown i Hi. simpl in Hi. apply filter_In in Hi as [Hi Hne].
    destruct (Hown i Hi) as (c & Hc & Hid & Hu).
    exists c. simpl. repeat split; try assumption.
    apply filter_In. split; [assumption |]. now rewrite Hid.
Qed.

(** A user whose cart, if any, has no cart item has no cart item at all,
    when every cart item sits in a cart of its user and a user has one cart
    at most. *)
Lemma empty_cart_has_no_user_cart_items (db : DB) (user : Z) :
  NoDup (map Cart.user (carts db)) ->
  cart_items_own_cart db ->
  (forall cart, ORM.User_cart db user = Some cart ->
     ORM.Cart_cart_items db cart = []) ->
  ORM.User_cart_items db user = [].
Proof.
  intros Hnd Hown Hempty. apply filter_nil. intros i Hi.
  apply Z.eqb_neq. intros Hu.
  destruct (Hown i Hi) as (c & Hc & Hid & Hcu).
  destruct (find_exists (fun c => Cart.user c =? user) (carts db) c Hc)
    as (cart & Hfind); [apply Z.eqb_eq; congruence |].
  pose proof (own_cart_is_user_cart db user cart i Hnd Hown Hfind Hi Hu) as Heq.
  assert (Hin : In i (ORM.Cart_cart_items db cart)).
  { apply filter_In. split; [assumption | now apply Z.eqb_eq]. }
  rewrite (Hempty cart Hfind) in Hin. contradiction.
Qed.



(** Emptying the cart and placing an order keep both invariants. *)
Lemma destroy_all_keeps_invariants (user : Z) (db : DB) :
  let db' := snd (CartItemViewSet.destroy_all user db) in
  (NoDup (map Cart.user (carts db)) -> NoDup (map Cart.user (carts db')))
  /\ (cart_items_own_cart db -> cart_items_own_cart db').
Proof.
  unfold CartItemViewSet.destroy_all, ORM.Cart_delete. run.
  destruct (ORM.User_cart db user) as [cart |]; simpl.
  - apply Cart_delete_keeps_invariants.
  - auto.
Qed.

Lemma OrderSerializer_create_keeps_invariants (today : Z)
  (validated_data : OrderAttrs.t) (user : Z) (db db' : DB) (order : Order.t) :
  OrderAttrs.user validated_data = Some user ->
  OrderSerializer.create today validated_data db = (Ok order, db') ->
  (NoDup (map Cart.user (carts db)) -> NoDup (map Cart.user (carts db')))
  /\ (cart_items_own_cart db -> cart_items_own_cart db').
Proof.
  intros Huser H.
  destruct (OrderSerializer_create_Ok _ _ _ _ _ _ Huser H)
    as (new_items & cart & _ & _ & _ & ->).
  exact (Cart_delete_keeps_invariants db cart).
Qed.

(** * Further properties of the serializers and of the views *)

(** ** Prices and totals *)

Lemma get_price_Ok (item : CartItem.t) (db db' : DB) (p : Decimal) :
  CartItemSerializer.get_price item db = (Ok p, db') ->
  db' = db
  /\ exists m,
       find (fun m => MenuItem.id m =? CartItem.menu_item item) (menu_items db)
       = Some m
       /\ p = MenuItem.price m * CartItem.quantity item.
Proof.
  unfold CartItemSerializer.get_price, ORM.menu_item_of. run.
  destruct (find _ (menu_items db)) as [m |]; intros H; inversion H; subst.
  split; [reflexivity |]. exists m. auto.
Qed.

Lemma cart_total_loop_iff (items : list CartItem.t) :
  forall (acc t : Decimal) (db db' : DB),
    for_loop
      (fun total item =>
         m <- ORM.menu_item_of (CartItem.menu_item item) ;;
         ret (total + MenuItem.price m * CartItem.quantity item))
      acc items db = (Ok t, db')
    <-> db' = db
        /\ exists prices,
             Forall2 (fun i p => CartItemSerializer.get_price i db = (Ok p, db))
               items prices
             /\ t = acc + total_of prices.
Proof.
  induction items as [| i items IH]; intros acc t db db'; simpl.
  - unfold ret. split.
    + intros [= <- <-]. split; [reflexivity |]. exists [].
      split; [constructor | simpl; lia].
    + intros (-> & prices & Hall & ->). inversion Hall; subst. simpl.
      now rewrite Z.add_0_r.
  - split.
    + intros H. apply bind_Ok in H as (acc' & db1 & Hbody & Hrest).
      apply bind_Ok in Hbody as (m & db2 & Hm & Hret).
      unfold ORM.menu_item_of in Hm. run in Hm.
      destruct (find _ (menu_items db)) as [m' |] eqn:Hfind;
        inversion Hm; subst m' db2; clear Hm.
      unfold ret in Hret. inversion Hret; subst acc' db1; clear Hret.
      apply IH in Hrest as (-> & prices & Hall & ->).
      split; [reflexivity |].
      exists (MenuItem.price m * CartItem.quantity i :: prices). split.
      * constructor; [| assumption].
        unfold CartItemSerializer.get_price, ORM.menu_item_of. run.
        now rewrite Hfind.
      * simpl. lia.
    + intros (-> & prices & Hall & ->).
      inversion Hall as [| ? p ? prices' Hp Hall']; subst.
      apply get_price_Ok in Hp as (_ & m & Hfind & ->).
      unfold bind at 1. unfold bind at 1. unfold ORM.menu_item_of at 1. run.
      rewrite Hfind.
      apply IH. split; [reflexivity |]. exists prices'.
      split; [assumption | simpl; lia].
Qed.

Lemma CartSerializer_get_total_iff (cart : Cart.t) (db db' : DB)
  (t : Decimal) :
  CartSerializer.get_total cart db = (Ok t, db')
  <-> db' = db
      /\ exists prices,
           Forall2 (fun i p => CartItemSerializer.get_price i db = (Ok p, db))
             (ORM.Cart_cart_items db cart) prices
           /\ t = total_of prices.
Proof.
  unfold CartSerializer.get_total. unfold bind at 1. unfold get at 1.
  rewrite cart_total_loop_iff. simpl.
  split; intros (-> & prices & Hall & ->); (split; [reflexivity |]);
    exists prices; auto.
Qed.

(** X1. The total of a cart is the sum of the prices that [get_price] gives
    for the cart items of the cart: [get_total] returns exactly when
    [get_price] returns for every one of them, with that sum, and it leaves
    the database as it is. *)
Theorem cart_total_is_sum_of_item_prices (cart : Cart.t) (db db' : DB)
  (t : Decimal) :
  CartSerializer.get_total cart db = (Ok t, db')
  <-> db' = db
      /\ exists prices,
           Forall2 (fun i p => CartItemSerializer.get_price i db = (Ok p, db))
             (ORM.Cart_cart_items db cart) prices
           /\ t = total_of prices.
Proof.
  unfold CartSerializer.get_total. unfold bind at 1. unfold get at 1.
  rewrite cart_total_loop_iff. simpl.
  split; intros (-> & prices & Hall & ->); (split; [reflexivity |]);
    exists prices; auto.
Qed.

(** On the sample database the two cart items cost 9.00 each. *)
Lemma cart_total_is_sum_witness :
  CartSerializer.get_total {| Cart.id := 1; Cart.user := 1 |} sample_db
  = (Ok 1800, sample_db).
Proof.
  apply cart_total_is_sum_of_item_prices.
  split; [reflexivity |]. exists [900; 900].
  split; [| reflexivity].
  repeat constructor.
Defined.

Lemma Forall2_In_left {A B} (R : A -> B -> Prop) (l : list A) (l' : list B)
  (x : A) :
  Forall2 R l l' -> In x l -> exists y, In y l' /\ R x y.
Proof.
  induction 1 as [| a b l l' Hab _ IH]; intros Hin; [contradiction |].
  destruct Hin as [<- | Hin].
  - exists b. split; [now left | assumption].
  - destruct (IH Hin) as (y & Hy & Hxy). exists y. split; [now right | assumption].
Qed.

Lemma get_price_same_menu_items (item : CartItem.t) (d1 d2 : DB) (p : Decimal) :
  menu_items d1 = menu_items d2 ->
  CartItemSerializer.get_price item d1 = (Ok p, d1) ->
  CartItemSerializer.get_price item d2 = (Ok p, d2).
Proof.
  intros Hsame Hp. apply get_price_Ok in Hp as (_ & m & Hfind & ->).
  unfold CartItemSerializer.get_price, ORM.menu_item_of. run.
  now rewrite <- Hsame, Hfind.
Qed.

(** The loop of [OrderSerializer.create], seen from the prices: the [price]
    of each new order item is what [get_price] gives for its cart item. *)
Lemma order_items_loop_prices (order : Order.t) (items : list CartItem.t) :
  forall dbA dbB,
    for_each
      (fun item =>
         m <- ORM.menu_item_of (CartItem.menu_item item) ;;
         ORM.OrderItem_objects_create
           (Order.id order) (MenuItem.id m) (CartItem.quantity item)
           (MenuItem.price m) (MenuItem.price m * CartItem.quantity item) ;;;
         ret tt)
      items dbA = (Ok tt, dbB) ->
    exists new_items,
      dbB = set_order_items (order_items dbA ++ new_items) dbA
      /\ Forall2
           (fun ci oi =>
              OrderItem.order oi = Order.id order
              /\ CartItemSerializer.get_price ci dbA
                 = (Ok (OrderItem.price oi), dbA))
           items new_items.
Proof.
  induction items as [| item items IH]; intros dbA dbB H; simpl in H.
  - unfold ret in H. inversion H; subst. exists [].
    split; [now rewrite set_order_items_id | constructor].
  - apply bind_Ok in H as (? & db1 & Hbody & Hrest).
    apply bind_Ok in Hbody as (m & db2 & Hm & Hcreate).
    unfold ORM.menu_item_of in Hm. run in Hm.
    destruct (find _ (menu_items dbA)) as [m' |] eqn:Hfind;
      inversion Hm; subst m' db2; clear Hm.
    apply bind_Ok in Hcreate as (oi & db3 & Hoi & Hret).
    unfold ret in Hret. inversion Hret; subst db3; clear Hret.
    unfold ORM.OrderItem_objects_create in Hoi. run in Hoi.
    destruct (existsb _ (order_items dbA)); [discriminate |].
    inversion Hoi; subst oi db1; clear Hoi.
    apply IH in Hrest as (new_items & HdbB & Hall).
    eexists (_ :: new_items). split.
    + rewrite HdbB. unfold set_order_items. simpl.
      now rewrite <- app_assoc.
    + constructor.
      * simpl. split; [reflexivity |].
        unfold CartItemSerializer.get_price, ORM.menu_item_of. run.
        now rewrite Hfind.
      * eapply Forall2_impl; [| exact Hall].
        intros ci oi [Ho Hp]. split; [exact Ho |].
        eapply get_price_same_menu_items; [| exact Hp]. reflexivity.
Qed.

Lemma OrderSerializer_create_Ok_prices (today : Z)
  (validated_data : OrderAttrs.t) (user : Z) (db db' : DB) (order : Order.t) :
  OrderAttrs.user validated_data = Some user ->
  OrderSerializer.create today validated_data db = (Ok order, db') ->
  exists new_items,
    order_items db' = order_items db ++ new_items
    /\ Order.id order = ORM.next_id (map Order.id (orders db))
    /\ Forall2
         (fun ci oi =>
            OrderItem.order oi = Order.id order
            /\ CartItemSerializer.get_price ci db = (Ok (OrderItem.price oi), db))
         (ORM.User_cart_items db user) new_items.
Proof.
  intros Huser H.
  unfold OrderSerializer.create in H.
  apply bind_Ok in H as (order' & db1 & Hcreate & H).
  unfold ORM.Order_objects_create in Hcreate. rewrite Huser in Hcreate.
  run in Hcreate. inversion Hcreate; subst order' db1; clear Hcreate.
  rewrite Huser in H.
  apply bind_Ok in H as (user' & db2 & Hget & H).
  run in Hget. inversion Hget; subst user' db2; clear Hget.
  apply bind_Ok in H as (dbl & db3 & Hget & H).
  run in Hget. inversion Hget; subst dbl db3; clear Hget.
  apply bind_Ok in H as ([] & db4 & Hloop & H).
  apply order_items_loop_prices in Hloop as (new_items & Hdb4 & Hall).
  apply bind_Ok in H as (dbd & db5 & Hget & H).
  run in Hget. inversion Hget; subst dbd db5; clear Hget.
  apply bind_Ok in H as (? & db6 & Hdel & H).
  unfold ret in H. inversion H; subst order db6; clear H.
  rewrite Hdb4 in Hdel. unfold ORM.User_cart in Hdel. simpl in Hdel.
  destruct (find _ (carts db)) as [cart |]; [| discriminate].
  unfold ORM.Cart_delete in Hdel. run in Hdel. simpl in Hdel.
  inversion Hdel; subst db'; clear Hdel.
  exists new_items. simpl.
  split; [reflexivity |]. split; [reflexivity |].
  eapply Forall2_impl; [| exact Hall].
  intros ci oi [Ho Hp]. split; [exact Ho |].
  eapply get_price_same_menu_items; [| exact Hp]. reflexivity.
Qed.

(** The cart items of the cart of a user are the cart items of the user,
    when carts have distinct primary keys, a user has one cart at most and
    every cart item sits in a cart of its user. *)
Lemma cart_items_of_cart_are_of_user (db : DB) (user : Z) (cart : Cart.t) :
  ORM.User_cart db user = Some cart ->
  NoDup (map Cart.id (carts db)) ->
  NoDup (map Cart.user (carts db)) ->
  cart_items_own_cart db ->
  ORM.Cart_cart_items db cart = ORM.User_cart_items db user.
Proof.
  intros Hcart Hids Husers Hown.
  unfold ORM.Cart_cart_items, ORM.User_cart_items.
  apply filter_ext_in. intros i Hi.
  pose proof (find_some _ _ Hcart) as [Hcin Hcu]. apply Z.eqb_eq in Hcu.
  destruct (Z.eqb_spec (CartItem.user i) user) as [Hu | Hu].
  - apply Z.eqb_eq. now apply (own_cart_is_user_cart db user cart i).
  - apply Z.eqb_neq. intros Hc. apply Hu.
    destruct (Hown i Hi) as (c & Hc' & Hid & Hcuser).
    assert (c = cart) as ->
      by (apply (NoDup_map_eq Cart.id (carts db)); congruence).
    congruence.
Qed.

Lemma Forall2_In_right {A B} (R : A -> B -> Prop) (l : list A) (l' : list B)
  (y : B) :
  Forall2 R l l' -> In y l' -> exists x, In x l /\ R x y.
Proof.
  induction 1 as [| a b l l' Hab _ IH]; intros Hin; [contradiction |].
  destruct Hin as [<- | Hin].
  - exists a. split; [now left | assumption].
  - destruct (IH Hin) as (x & Hx & Hxy). exists x. split; [now right | assumption].
Qed.

(** X2. The total of an order that has just been created is the sum of the
    prices that [get_price] gave for the cart items of the user before the
    creation, provided that every order item of the database referred to an
    order of the table; on a database where moreover carts have distinct
    primary keys, a user has one cart at most and every cart item sits in a
    cart of its user, it is the total that the cart of the user had. *)
Theorem new_order_total_is_cart_total (today : Z)
  (validated_data : OrderAttrs.t) (user : Z) (db db' : DB) (order : Order.t) :
  OrderAttrs.user validated_data = Some user ->
  OrderSerializer.create today validated_data db = (Ok order, db') ->
  order_items_have_order db ->
  exists t,
    OrderSerializer.get_total order db' = (Ok t, db')
    /\ (exists prices,
          Forall2 (fun i p => CartItemSerializer.get_price i db = (Ok p, db))
            (ORM.User_cart_items db user) prices
          /\ t = total_of prices)
    /\ (forall cart,
          ORM.User_cart db user = Some cart ->
          NoDup (map Cart.id (carts db)) ->
          NoDup (map Cart.user (carts db)) ->
          cart_items_own_cart db ->
          CartSerializer.get_total cart db = (Ok t, db)).
Proof.
  intros Huser H Hfk.
  destruct (OrderSerializer_create_Ok_prices _ _ _ _ _ _ Huser H)
    as (new_items & Hitems & Hid & Hall).
  assert (Hmine : ORM.Order_order_items db' order = new_items).
  { unfold ORM.Order_order_items. rewrite Hitems, filter_app.
    rewrite (filter_nil _ (order_items db)).
    - simpl. apply forallb_filter_id. apply forallb_forall.
      intros oi Hoi. destruct (Forall2_In_right _ _ _ _ Hall Hoi)
        as (ci & _ & Ho & _).
      now apply Z.eqb_eq.
    - intros oi Hoi. apply Z.eqb_neq. rewrite Hid.
      destruct (Hfk oi Hoi) as (o & Ho & <-).
      pose proof (next_id_fresh _ _ (in_map Order.id _ _ Ho)). lia. }
  assert (Hprices : Forall2
                      (fun i p => CartItemSerializer.get_price i db = (Ok p, db))
                      (ORM.User_cart_items db user)
                      (map OrderItem.price new_items)).
  { clear - Hall. induction Hall as [| ci oi l l' [_ Hp] _ IH]; simpl;
      constructor; assumption. }
  exists (total_of (map OrderItem.price new_items)).
  split; [| split].
  - unfold OrderSerializer.get_total. unfold bind at 1. unfold get at 1.
    rewrite order_total_loop, Hmine. reflexivity.
  - eauto.
  - intros cart Hcart Hids Husers Hown.
    apply CartSerializer_get_total_iff. split; [reflexivity |].
    exists (map OrderItem.price new_items).
    rewrite (cart_items_of_cart_are_of_user db user cart); auto.
Qed.

Lemma sample_order_items_have_order : order_items_have_order sample_db.
Proof.
  intros oi Hoi. exists {| Order.id := 1; Order.user := 2;
                           Order.delivery_crew := None; Order.status := true;
                           Order.date := 20240101 |}.
  split; [now left |].
  simpl in Hoi. destruct Hoi as [<- | [<- | []]]; reflexivity.
Defined.

(** On the sample database the order of the first user totals what the
    cart did. *)
Lemma new_order_total_witness :
  let db' := snd (OrderSerializer.create 20240102 sample_order_attrs sample_db) in
  OrderSerializer.create 20240102 sample_order_attrs sample_db
  = (Ok sample_new_order, db')
  /\ order_items_have_order sample_db
  /\ exists t,
       OrderSerializer.get_total sample_new_order db' = (Ok t, db')
       /\ (exists prices,
             Forall2
               (fun i p =>
                  CartItemSerializer.get_price i sample_db = (Ok p, sample_db))
               (ORM.User_cart_items sample_db 1) prices
             /\ t = total_of prices)
       /\ (forall cart,
             ORM.User_cart sample_db 1 = Some cart ->
             NoDup (map Cart.id (carts sample_db)) ->
             NoDup (map Cart.user (carts sample_db)) ->
             cart_items_own_cart sample_db ->
             CartSerializer.get_total cart sample_db = (Ok t, sample_db)).
Proof.
  intros db'.
  split; [reflexivity |]. split; [exact sample_order_items_have_order |].
  exact (new_order_total_is_cart_total 20240102 sample_order_attrs 1 sample_db
           db' sample_new_order eq_refl eq_refl sample_order_items_have_order).
Defined.

(** ** Who sees which order *)

Lemma belongs_to_dec (db : DB) (user : Z) (name : string) :
  ORM.User_in_group db user name = false <-> ~ belongs_to db user name.
Proof.
  rewrite <- User_in_group_iff. now destruct (ORM.User_in_group db user name).
Qed.

(** X3. The orders that a user sees are orders of the table, and the orders
    of the user are among them whatever the groups of the user. A manager
    sees every order. A user who is not a manager sees an order only if it
    is an order of the user or, for a member of the delivery crew, an order
    that the user delivers; a member of the delivery crew sees all of
    these. *)
Theorem order_visibility (db : DB) (user : Z) :
  (forall o, In o (OrderViewSet.get_queryset db user) -> In o (orders db))
  /\ (forall o, In o (orders db) -> Order.user o = user ->
        In o (OrderViewSet.get_queryset db user))
  /\ (belongs_to db user "Manager" ->
      OrderViewSet.get_queryset db user = orders db)
  /\ (~ belongs_to db user "Manager" ->
      forall o, In o (OrderViewSet.get_queryset db user) ->
        Order.user o = user
        \/ (belongs_to db user "Delivery Crew"
            /\ Order.delivery_crew o = Some user))
  /\ (belongs_to db user "Delivery Crew" ->
      forall o, In o (orders db) -> Order.delivery_crew o = Some user ->
        In o (OrderViewSet.get_queryset db user)).
Proof.
  unfold OrderViewSet.get_queryset.
  destruct (ORM.User_in_group db user "Manager") eqn:Hm;
    [| destruct (ORM.User_in_group db user "Delivery Crew") eqn:Hc].
  - apply User_in_group_iff in Hm.
    repeat split; auto. intros Hnot. contradiction.
  - apply belongs_to_dec in Hm. apply User_in_group_iff in Hc.
    split; [| split; [| split; [| split]]].
    + intros o Ho. now apply filter_In in Ho.
    + intros o Ho Hu. apply filter_In. split; [assumption |].
      apply Z.eqb_eq in Hu. now rewrite Hu.
    + intros Habs. contradiction.
    + intros _ o Ho. apply filter_In in Ho as [_ Ho].
      apply orb_true_iff in Ho as [Ho | Ho].
      * left. now apply Z.eqb_eq.
      * right. split; [assumption |].
        destruct (Order.delivery_crew o) as [c |]; [| discriminate].
        apply Z.eqb_eq in Ho. now subst.
    + intros _ o Ho Hd. apply filter_In. split; [assumption |].
      rewrite Hd, Z.eqb_refl. apply orb_true_r.
  - apply belongs_to_dec in Hm. apply belongs_to_dec in Hc.
    split; [| split; [| split; [| split]]].
    + intros o Ho. now apply filter_In in Ho.
    + intros o Ho Hu. apply filter_In. split; [assumption |].
      now apply Z.eqb_eq.
    + intros Habs. contradiction.
    + intros _ o Ho. apply filter_In in Ho as [_ Ho].
      left. now apply Z.eqb_eq.
    + intros Habs. contradiction.
Qed.

(** On the sample database the second user, of the delivery crew, sees the
    order that the user has placed, and the first user sees none. *)
Lemma order_visibility_witness :
  let o := {| Order.id := 1; Order.user := 2; Order.delivery_crew := None;
              Order.status := true; Order.date := 20240101 |} in
  In o (orders sample_db)
  /\ In o (OrderViewSet.get_queryset sample_db 2)
  /\ ~ belongs_to sample_db 1 "Manager"
  /\ (In o (OrderViewSet.get_queryset sample_db 1) ->
      Order.user o = 1
      \/ (belongs_to sample_db 1 "Delivery Crew"
          /\ Order.delivery_crew o = Some 1)).
Proof.
  intros o.
  assert (Hin : In o (orders sample_db)) by (now left).
  assert (Hnot : ~ belongs_to sample_db 1 "Manager")
    by (apply belongs_to_dec; reflexivity).
  split; [exact Hin |]. split; [| split; [exact Hnot |]].
  - exact (proj1 (proj2 (order_visibility sample_db 2)) o Hin eq_refl).
  - exact (proj1 (proj2 (proj2 (proj2 (order_visibility sample_db 1)))) Hnot o).
Defined.

(** ** Updating an order *)

(** A [PUT] or a [PATCH] on an order, step by step. *)
Lemma OrderViewSet_update_unfold (user pk : Z) (partial : bool)
  (data : OrderData.t) (db : DB) :
  OrderViewSet.update user pk partial data db
  = match find (fun o => Order.id o =? pk) (OrderViewSet.get_queryset db user)
    with
    | None => (Raise (Http404 "No Order matches the given query."), db)
    | Some instance =>
        let save crew :=
          OrderSerializer.update instance
            {| OrderAttrs.user := None;
               OrderAttrs.delivery_crew := crew;
               OrderAttrs.status := OrderData.status data |} db in
        if ORM.User_in_group db user "Delivery Crew"
        then save None
        else match OrderData.delivery_crew data with
             | None => save None
             | Some None => (Raise (AttributeError "groups"), db)
             | Some (Some crew) =>
                 if existsb (fun u => User.id u =? crew) (users db)
                 then if ORM.User_in_group db crew "Delivery Crew"
                      then save (Some (Some crew))
                      else (Raise (ValidationError
                                     (DetailDict
                                        [("delivery_crew",
                                          ["Invalid delivery crew ID"])])),
                            db)
                 else (Raise (ValidationError
                                (DetailDict
                                   [("delivery_crew",
                                     ["Invalid pk - object does not exist."])])),
                       db)
             end
    end.
Proof.
  unfold OrderViewSet.update, OrderViewSet.get_object. unfold bind at 1.
  unfold bind at 1. unfold get at 1.
  destruct (find _ (OrderViewSet.get_queryset db user)) as [instance |];
    [| reflexivity].
  unfold ret at 1. unfold OrderViewSet.get_serializer_class.
  unfold OrderSerializer.to_internal_value, validated,
    OrderSerializer.validate_delivery_crew.
  destruct partial; simpl; run;
    destruct (ORM.User_in_group db user "Delivery Crew"); simpl;
    destruct data as [[[crew |] |] [s |]]; simpl; try reflexivity;
    destruct (existsb _ (users db)); simpl; try reflexivity;
    destruct (ORM.User_in_group db crew "Delivery Crew"); reflexivity.
Qed.

Lemma OrderSerializer_update_eq (instance : Order.t) (attrs : OrderAttrs.t)
  (db : DB) :
  OrderSerializer.update instance attrs db
  = (Ok {| Order.id := Order.id instance;
           Order.user := or_else (OrderAttrs.user attrs) (Order.user instance);
           Order.delivery_crew :=
             or_else (OrderAttrs.delivery_crew attrs)
               (Order.delivery_crew instance);
           Order.status :=
             or_else (OrderAttrs.status attrs) (Order.status instance);
           Order.date := Order.date instance |},
     set_orders
       (map (fun o =>
               if Order.id o =? Order.id instance
               then {| Order.id := Order.id instance;
                       Order.user :=
                         or_else (OrderAttrs.user attrs) (Order.user instance);
                       Order.delivery_crew :=
                         or_else (OrderAttrs.delivery_crew attrs)
                           (Order.delivery_crew instance);
                       Order.status :=
                         or_else (OrderAttrs.status attrs)
                           (Order.status instance);
                       Order.date := Order.date instance |}
               else o)
          (orders db)) db).
Proof. reflexivity. Qed.

(** An update of an order that returns: the row that was read, what the
    answer holds, and what has been written. *)
Lemma OrderViewSet_update_Ok (user pk : Z) (partial : bool)
  (data : OrderData.t) (db db' : DB) (order : Order.t) :
  OrderViewSet.update user pk partial data db = (Ok order, db') ->
  exists instance,
    In instance (OrderViewSet.get_queryset db user)
    /\ Order.id instance = pk
    /\ Order.id order = pk
    /\ Order.user order = Order.user instance
    /\ Order.date order = Order.date instance
    /\ Order.status order
       = or_else (OrderData.status data) (Order.status instance)
    /\ (Order.delivery_crew order = Order.delivery_crew instance
        \/ exists crew,
             ORM.User_in_group db user "Delivery Crew" = false
             /\ OrderData.delivery_crew data = Some (Some crew)
             /\ Order.delivery_crew order = Some crew
             /\ ORM.User_in_group db crew "Delivery Crew" = true)
    /\ db' = set_orders
               (map (fun o => if Order.id o =? pk then order else o) (orders db))
               db.
Proof.
  rewrite OrderViewSet_update_unfold.
  destruct (find _ (OrderViewSet.get_queryset db user)) as [instance |] eqn:Hfind;
    [| discriminate].
  apply find_some_id in Hfind as [Hin Hid].
  intros H. exists instance. cbv zeta in H.
  destruct (ORM.User_in_group db user "Delivery Crew") eqn:Hcrew.
  - rewrite OrderSerializer_update_eq in H. inversion H; subst; simpl.
    repeat split; auto.
  - destruct (OrderData.delivery_crew data) as [[crew |] |] eqn:Hdata.
    + destruct (existsb _ (users db)); [| discriminate].
      destruct (ORM.User_in_group db crew "Delivery Crew") eqn:Hmember;
        [| discriminate].
      rewrite OrderSerializer_update_eq in H. inversion H; subst; simpl.
      repeat split; auto. right. exists crew. auto.
    + discriminate.
    + rewrite OrderSerializer_update_eq in H. inversion H; subst; simpl.
      repeat split; auto.
Qed.

Lemma order_visibility_subset (db : DB) (user : Z) :
  (forall o, In o (OrderViewSet.get_queryset db user) -> In o (orders db))
  /\ (ORM.User_in_group db user "Manager" = false ->
      ORM.User_in_group db user "Delivery Crew" = false ->
      forall o, In o (OrderViewSet.get_queryset db user) -> Order.user o = user).
Proof.
  unfold OrderViewSet.get_queryset. split.
  - intros o. destruct (ORM.User_in_group db user "Manager");
      [auto |]. destruct (ORM.User_in_group db user "Delivery Crew");
      intros Ho; now apply filter_In in Ho.
  - intros -> -> o Ho. apply filter_In in Ho as [_ Ho]. now apply Z.eqb_eq.
Qed.

(** X4. An update of an order that goes through has changed neither the
    primary key, nor the user, nor the date of the order; it has written the
    table of orders only, has kept its length, and has left every order of
    another primary key as it was. *)
Theorem order_update_keeps_owner_and_date (user pk : Z) (partial : bool)
  (data : OrderData.t) (db db' : DB) (order : Order.t) :
  OrderViewSet.update user pk partial data db = (Ok order, db') ->
  (exists instance,
     In instance (orders db)
     /\ Order.id instance = pk
     /\ Order.id order = pk
     /\ Order.user order = Order.user instance
     /\ Order.date order = Order.date instance)
  /\ In order (orders db')
  /\ List.length (orders db') = List.length (orders db)
  /\ (forall o, In o (orders db) -> Order.id o <> pk -> In o (orders db'))
  /\ order_items db' = order_items db
  /\ carts db' = carts db
  /\ cart_items db' = cart_items db
  /\ user_groups db' = user_groups db.
Proof.
  intros H.
  apply OrderViewSet_update_Ok in H
    as (instance & Hin & Hid & Hid' & Hu & Hd & _ & _ & ->).
  apply (proj1 (order_visibility_subset db user)) in Hin.
  split; [exists instance; auto |]. simpl.
  split; [| split; [| split; [| auto]]].
  - apply in_map_iff. exists instance. split; [| assumption].
    apply Z.eqb_eq in Hid. now rewrite Hid.
  - apply length_map.
  - intros o Ho Hne. apply in_map_iff. exists o. split; [| assumption].
    apply Z.eqb_neq in Hne. now rewrite Hne.
Qed.

(** The manager of the staffed database marks the second order as
    delivered. *)
Lemma order_update_witness :
  let data := {| OrderData.delivery_crew := None;
                 OrderData.status := Some true |} in
  let order := {| Order.id := 2; Order.user := 1; Order.delivery_crew := Some 2;
                  Order.status := true; Order.date := 20240102 |} in
  let db' := snd (OrderViewSet.update 3 2 true data staffed_db) in
  OrderViewSet.update 3 2 true data staffed_db = (Ok order, db')
  /\ In order (orders db')
  /\ List.length (orders db') = List.length (orders staffed_db)
  /\ order_items db' = order_items staffed_db.
Proof.
  intros data order db'.
  split; [reflexivity |].
  pose proof (order_update_keeps_owner_and_date 3 2 true data staffed_db db'
                order eq_refl) as (_ & Hin & Hlen & _ & Hitems & _).
  auto.
Defined.

(** X5. A member of the delivery crew cannot reassign an order: the fields
    of the serializer do not hold [delivery_crew] for the [PUT] and the
    [PATCH] of such a user, so that two requests that differ only in
    [delivery_crew] have the same outcome and leave the same database, and
    the order that an update returns has the delivery crew that it had. *)
Theorem delivery_crew_member_cannot_reassign (user pk : Z) (partial : bool)
  (db : DB) :
  belongs_to db user "Delivery Crew" ->
  (forall hidden_fields db1,
     OrderViewSet.get_serializer_class (if partial then "PATCH" else "PUT")
       user db = (Ok hidden_fields, db1) ->
     let fields :=
       HiddenFieldSerializerMixin.get_fields hidden_fields
         OrderSerializer.Meta_fields in
     ~ In "delivery_crew" fields /\ In "status" fields)
  /\ (forall data1 data2,
        OrderData.status data1 = OrderData.status data2 ->
        OrderViewSet.update user pk partial data1 db
        = OrderViewSet.update user pk partial data2 db)
  /\ (forall data order db',
        OrderViewSet.update user pk partial data db = (Ok order, db') ->
        exists instance,
          In instance (orders db) /\ Order.id instance = pk
          /\ Order.delivery_crew order = Order.delivery_crew instance).
Proof.
  intros Hcrew. apply User_in_group_iff in Hcrew.
  split; [| split].
  - intros hidden_fields db1 H fields.
    unfold OrderViewSet.get_serializer_class in H. run in H.
    rewrite Hcrew in H.
    destruct partial; simpl in H; inversion H; subst hidden_fields db1;
      subst fields; simpl; (split; [intuition discriminate | tauto]).
  - intros data1 data2 Hstatus. rewrite !OrderViewSet_update_unfold.
    destruct (find _ (OrderViewSet.get_queryset db user)); [| reflexivity].
    cbv zeta. now rewrite Hcrew, Hstatus.
  - intros data order db' H.
    apply OrderViewSet_update_Ok in H
      as (instance & Hin & Hid & _ & _ & _ & _ & Hdc & _).
    exists instance.
    split; [now apply (proj1 (order_visibility_subset db user)) |].
    split; [assumption |].
    destruct Hdc as [Hdc | (crew & Hno & _)]; [assumption | congruence].
Qed.

(** The second user of the staffed database, of the delivery crew, asks to
    deliver the first order, which is the user's own: the request is taken
    as one that asks nothing about the delivery crew. *)
Lemma delivery_crew_member_witness :
  let asks := {| OrderData.delivery_crew := Some (Some 2);
                 OrderData.status := Some false |} in
  let silent := {| OrderData.delivery_crew := None;
                   OrderData.status := Some false |} in
  belongs_to staffed_db 2 "Delivery Crew"
  /\ OrderViewSet.update 2 1 true asks staffed_db
     = OrderViewSet.update 2 1 true silent staffed_db
  /\ exists order,
       fst (OrderViewSet.update 2 1 true asks staffed_db) = Ok order
       /\ Order.delivery_crew order = None.
Proof.
  intros asks silent.
  assert (Hcrew : belongs_to staffed_db 2 "Delivery Crew")
    by (apply User_in_group_iff; reflexivity).
  split; [exact Hcrew |]. split.
  - exact (proj1 (proj2 (delivery_crew_member_cannot_reassign 2 1 true
                           staffed_db Hcrew)) asks silent eq_refl).
  - eexists. split; reflexivity.
Defined.



(** X7. The order endpoints keep the delivery crew of every order in the
    group "Delivery Crew": an order is created without delivery crew, and an
    update writes a delivery crew only after [validate_delivery_crew] has
    accepted it. *)
Theorem order_endpoints_keep_delivery_crews_in_group (today user : Z)
  (db db' : DB) (order : Order.t) :
  delivery_crews_in_group db ->
  ((exists data, OrderViewSet.create today user data db = (Ok order, db'))
   \/ (exists pk partial data,
         OrderViewSet.update user pk partial data db = (Ok order, db'))) ->
  delivery_crews_in_group db'.
Proof.
  intros Hinv [(data & H) | (pk & partial & data & H)].
  - rewrite OrderViewSet_create_unfold in H.
    destruct (ORM.User_cart_items db user); [discriminate |].
    apply (OrderSerializer_create_Ok _ _ user) in H; [| reflexivity].
    destruct H as (new_items & cart & _ & _ & Horder & ->).
    intros o crew Ho Hcrew. simpl in Ho.
    apply in_app_or in Ho as [Ho | [<- | []]].
    + exact (Hinv o crew Ho Hcrew).
    + rewrite Horder in Hcrew. discriminate.
  - apply OrderViewSet_update_Ok in H
      as (instance & Hin & _ & _ & _ & _ & _ & Hdc & ->).
    apply (proj1 (order_visibility_subset db user)) in Hin.
    intros o crew Ho Hcrew. simpl in Ho.
    apply in_map_iff in Ho as (o0 & Heq & Ho0).
    destruct (Order.id o0 =? pk).
    + subst o. destruct Hdc as [Hsame | (c & _ & _ & Hc & Hmember)].
      * rewrite Hsame in Hcrew. exact (Hinv instance crew Hin Hcrew).
      * rewrite Hc in Hcrew. injection Hcrew as <-.
        apply User_in_group_iff in Hmember. exact Hmember.
    + subst o0. exact (Hinv o crew Ho0 Hcrew).
Qed.

(** The manager of the staffed database gives the first order to the second
    user. *)
Lemma order_endpoints_witness :
  let data := {| OrderData.delivery_crew := Some (Some 2);
                 OrderData.status := None |} in
  let order := {| Order.id := 1; Order.user := 2; Order.delivery_crew := Some 2;
                  Order.status := true; Order.date := 20240101 |} in
  let db' := snd (OrderViewSet.update 3 1 false data staffed_db) in
  delivery_crews_in_group staffed_db
  /\ OrderViewSet.update 3 1 false data staffed_db = (Ok order, db')
  /\ delivery_crews_in_group db'.
Proof.
  intros data order db'.
  assert (Hinv : delivery_crews_in_group staffed_db).
  { intros o crew Ho Hcrew. simpl in Ho.
    destruct Ho as [<- | [<- | []]]; [discriminate |].
    injection Hcrew as <-. apply User_in_group_iff. reflexivity. }
  split; [exact Hinv |]. split; [reflexivity |].
  apply (order_endpoints_keep_delivery_crews_in_group 0 3 staffed_db db' order
           Hinv).
  right. exists 1, false, data. reflexivity.
Defined.



(** ** Members of a group *)

Lemma in_user_set_iff (db : DB) (group : Group.t) (user : Z) :
  GroupUserViewSet.in_user_set db group user = true
  <-> In (user, Group.id group) (user_groups db).
Proof.
  unfold GroupUserViewSet.in_user_set. rewrite existsb_exists. split.
  - intros ([u g] & Hin & H). simpl in H.
    apply andb_true_iff in H as [Hu Hg].
    apply Z.eqb_eq in Hu. apply Z.eqb_eq in Hg. now subst.
  - intros Hin. exists (user, Group.id group). split; [assumption |].
    simpl. now rewrite !Z.eqb_refl.
Qed.

Lemma GroupUserViewSet_create_unfold (group : Group.t)
  (request_data : list (string * string)) (db : DB) :
  GroupUserViewSet.create group request_data db
  = match GroupUserViewSet.data_get "username" request_data with
    | None => (Raise (KeyError "username"), db)
    | Some username =>
        match find (fun u => String.eqb (User.username u) username) (users db)
        with
        | None => (Raise (Http404 "No User matches the given query."), db)
        | Some user =>
            (Ok {| status_code := HTTP_201_CREATED;
                   data := [("message", "User added to group")] |},
             if GroupUserViewSet.in_user_set db group (User.id user)
             then db
             else set_user_groups
                    (user_groups db ++ [(User.id user, Group.id group)]) db)
        end
    end.
Proof.
  unfold GroupUserViewSet.create, dict_get.
  destruct (GroupUserViewSet.data_get "username" request_data) as [username |];
    [| reflexivity].
  run. cbv beta iota.
  destruct (find _ (users db)) as [user |]; [| reflexivity].
  destruct (GroupUserViewSet.in_user_set db group (User.id user)); reflexivity.
Qed.

(** X9. Adding a user to a group answers 201 and makes the user of that
    username a member of the group, listed by [get_queryset]; it loses no
    membership and adds no other one, and adding the same user again changes
    nothing. A request without the key [username] raises [KeyError] and
    leaves the database as it was. *)
Theorem group_add_makes_member (group : Group.t)
  (request_data : list (string * string)) (db : DB) :
  (GroupUserViewSet.data_get "username" request_data = None ->
   GroupUserViewSet.create group request_data db
   = (Raise (KeyError "username"), db))
  /\ (forall response db',
        GroupUserViewSet.create group request_data db = (Ok response, db') ->
        status_code response = HTTP_201_CREATED
        /\ (exists user,
              In user (users db)
              /\ GroupUserViewSet.data_get "username" request_data
                 = Some (User.username user)
              /\ In user (GroupUserViewSet.get_queryset db' group)
              /\ forall u g,
                   In (u, g) (user_groups db')
                   <-> In (u, g) (user_groups db)
                       \/ (u = User.id user /\ g = Group.id group))
        /\ GroupUserViewSet.create group request_data db' = (Ok response, db')).
Proof.
  split.
  - intros Hnone. rewrite GroupUserViewSet_create_unfold. now rewrite Hnone.
  - intros response db' H. rewrite GroupUserViewSet_create_unfold in H.
    destruct (GroupUserViewSet.data_get "username" request_data)
      as [username |] eqn:Hdata; [| discriminate].
    destruct (find _ (users db)) as [user |] eqn:Hfind; [| discriminate].
    injection H as <- Hdb'.
    pose proof (find_some _ _ Hfind) as [Hin Hname].
    apply String.eqb_eq in Hname.
    assert (Hrows : forall u g,
               In (u, g) (user_groups db')
               <-> In (u, g) (user_groups db)
                   \/ (u = User.id user /\ g = Group.id group)).
    { intros u g. rewrite <- Hdb'.
      destruct (GroupUserViewSet.in_user_set db group (User.id user)) eqn:Hmem.
      - apply in_user_set_iff in Hmem. split; [auto |].
        intros [Hold | [-> ->]]; assumption.
      - simpl. rewrite in_app_iff. simpl. split.
        + intros [Hold | [[= <- <-] | []]]; auto.
        + intros [Hold | [-> ->]]; auto. }
    assert (Hmember : GroupUserViewSet.in_user_set db' group (User.id user) = true).
    { apply in_user_set_iff. apply Hrows. right. auto. }
    assert (Husers : users db' = users db).
    { rewrite <- Hdb'.
      now destruct (GroupUserViewSet.in_user_set db group (User.id user)). }
    split; [reflexivity |]. split.
    + exists user. split; [assumption |]. split; [now rewrite Hname |].
      split; [| exact Hrows].
      unfold GroupUserViewSet.get_queryset. apply filter_In.
      rewrite Husers. auto.
    + rewrite GroupUserViewSet_create_unfold, Hdata, Husers, Hfind, Hmember.
      reflexivity.
Qed.

(** On the sample database the first user joins the delivery crew, once
    and for all. *)
Lemma group_add_witness :
  let crew := {| Group.id := 2; Group.name := "Delivery Crew" |} in
  let created := {| status_code := HTTP_201_CREATED;
                    data := [("message", "User added to group")] |} in
  let db' := snd (GroupUserViewSet.create crew [("username", "ann")] sample_db) in
  GroupUserViewSet.create crew [("username", "ann")] sample_db = (Ok created, db')
  /\ GroupUserViewSet.create crew [("username", "ann")] db' = (Ok created, db')
  /\ GroupUserViewSet.data_get "username" [] = None
  /\ GroupUserViewSet.create crew [] sample_db
     = (Raise (KeyError "username"), sample_db).
Proof.
  intros crew created db'.
  split; [reflexivity |]. split; [| split; [reflexivity |]].
  - exact (proj2 (proj2 (proj2 (group_add_makes_member crew
                                  [("username", "ann")] sample_db)
                           created db' eq_refl))).
  - exact (proj1 (group_add_makes_member crew [] sample_db) eq_refl).
Defined.

Lemma GroupUserViewSet_destroy_unfold (group : Group.t) (pk : Z) (db : DB) :
  GroupUserViewSet.destroy group pk db
  = match find (fun u => User.id u =? pk)
            (GroupUserViewSet.get_queryset db group) with
    | None => (Raise (Http404 "No User matches the given query."), db)
    | Some user =>
        (Ok {| status_code := HTTP_200_OK;
               data := [("message", "User removed from group")] |},
         set_user_groups
           (filter (fun ug => negb ((fst ug =? User.id user)
                                    && (snd ug =? Group.id group)))
              (user_groups db)) db)
    end.
Proof.
  unfold GroupUserViewSet.destroy. run.
  destruct (find _ (GroupUserViewSet.get_queryset db group)); reflexivity.
Qed.

(** X10. Removing a user from a group answers 200 when the user of the
    primary key is a member of the group, and then the user is no member any
    more, while every other membership is as it was and no membership has
    been added. When no member of the group has the primary key, the
    removal raises [Http404] and the database is as it was. *)
Theorem group_remove_ends_membership (group : Group.t) (pk : Z) (db : DB) :
  ((forall u, In u (users db) -> User.id u = pk ->
      ~ In (pk, Group.id group) (user_groups db)) ->
   GroupUserViewSet.destroy group pk db
   = (Raise (Http404 "No User matches the given query."), db))
  /\ (forall response db',
        GroupUserViewSet.destroy group pk db = (Ok response, db') ->
        status_code response = HTTP_200_OK
        /\ (exists user, In user (users db) /\ User.id user = pk)
        /\ In (pk, Group.id group) (user_groups db)
        /\ GroupUserViewSet.in_user_set db' group pk = false
        /\ (forall u g,
              In (u, g) (user_groups db')
              <-> In (u, g) (user_groups db)
                  /\ ~ (u = pk /\ g = Group.id group))
        /\ users db' = users db /\ groups db' = groups db
        /\ orders db' = orders db).
Proof.
  split.
  - intros Hnone. rewrite GroupUserViewSet_destroy_unfold.
    destruct (find _ (GroupUserViewSet.get_queryset db group)) as [user |]
      eqn:Hfind; [| reflexivity].
    exfalso. apply find_some_id in Hfind as [Hin Hid].
    apply filter_In in Hin as [Hin Hmem]. apply in_user_set_iff in Hmem.
    rewrite Hid in Hmem. exact (Hnone user Hin Hid Hmem).
  - intros response db' H. rewrite GroupUserViewSet_destroy_unfold in H.
    destruct (find _ (GroupUserViewSet.get_queryset db group)) as [user |]
      eqn:Hfind; [| discriminate].
    injection H as <- <-.
    apply find_some_id in Hfind as [Hin Hid].
    apply filter_In in Hin as [Hin Hmem]. apply in_user_set_iff in Hmem.
    rewrite Hid in *.
    assert (Hrows : forall u g,
               In (u, g)
                 (filter (fun ug => negb ((fst ug =? pk)
                                          && (snd ug =? Group.id group)))
                    (user_groups db))
               <-> In (u, g) (user_groups db)
                   /\ ~ (u = pk /\ g = Group.id group)).
    { intros u g. rewrite filter_In. simpl.
      rewrite negb_true_iff, andb_false_iff, !Z.eqb_neq.
      destruct (Z.eq_dec u pk), (Z.eq_dec g (Group.id group)); tauto. }
    split; [reflexivity |]. split; [eauto |]. split; [assumption |].
    split; [| split; [exact Hrows | auto]].
    apply not_true_is_false. intros Habs. apply in_user_set_iff in Habs.
    simpl in Habs. apply Hrows in Habs. tauto.
Qed.

(** On the sample database the second user leaves the delivery crew; the
    first user was not in it. *)
Lemma group_remove_witness :
  let crew := {| Group.id := 2; Group.name := "Delivery Crew" |} in
  let removed := {| status_code := HTTP_200_OK;
                    data := [("message", "User removed from group")] |} in
  let db' := snd (GroupUserViewSet.destroy crew 2 sample_db) in
  GroupUserViewSet.destroy crew 2 sample_db = (Ok removed, db')
  /\ GroupUserViewSet.in_user_set db' crew 2 = false
  /\ GroupUserViewSet.destroy crew 1 sample_db
     = (Raise (Http404 "No User matches the given query."), sample_db).
Proof.
  intros crew removed db'.
  split; [reflexivity |]. split.
  - exact (proj1 (proj2 (proj2 (proj2
             (proj2 (group_remove_ends_membership crew 2 sample_db)
                removed db' eq_refl))))).
  - apply (proj1 (group_remove_ends_membership crew 1 sample_db)).
    simpl. intros u _ _ [[=] | []].
Defined.

(** X11. Adding to a group a user who is not a member and removing the user
    again gives back the database as it was. *)
Theorem group_add_then_remove_is_identity (group : Group.t) (user : User.t)
  (request_data : list (string * string)) (db db1 : DB) (response : Response) :
  GroupUserViewSet.data_get "username" request_data = Some (User.username user) ->
  find (fun u => String.eqb (User.username u) (User.username user)) (users db)
  = Some user ->
  ~ In (User.id user, Group.id group) (user_groups db) ->
  GroupUserViewSet.create group request_data db = (Ok response, db1) ->
  GroupUserViewSet.destroy group (User.id user) db1
  = (Ok {| status_code := HTTP_200_OK;
           data := [("message", "User removed from group")] |}, db).
Proof.
  intros Hdata Hfind Hnot H.
  rewrite GroupUserViewSet_create_unfold, Hdata, Hfind in H.
  assert (Hmem : GroupUserViewSet.in_user_set db group (User.id user) = false).
  { apply not_true_is_false. intros Habs. now apply in_user_set_iff in Habs. }
  rewrite Hmem in H. injection H as _ <-.
  rewrite GroupUserViewSet_destroy_unfold.
  pose proof (find_some _ _ Hfind) as [Hin _].
  destruct (find_exists (fun u => User.id u =? User.id user)
              (GroupUserViewSet.get_queryset
                 (set_user_groups
                    (user_groups db ++ [(User.id user, Group.id group)]) db)
                 group) user) as (found & Hfound).
  - apply filter_In. split; [exact Hin |]. apply in_user_set_iff. simpl.
    apply in_or_app. right. now left.
  - apply Z.eqb_refl.
  - rewrite Hfound. apply find_some_id in Hfound as [_ Hid]. rewrite Hid.
    f_equal. simpl. rewrite filter_app. simpl. rewrite !Z.eqb_refl. simpl.
    rewrite app_nil_r.
    rewrite forallb_filter_id.
    + destruct db. reflexivity.
    + apply forallb_forall. intros [u g] Hug. simpl.
      apply negb_true_iff, andb_false_iff.
      destruct (Z.eqb_spec u (User.id user)) as [-> | Hu]; [| now left].
      destruct (Z.eqb_spec g (Group.id group)) as [-> | Hg]; [| now right].
      contradiction.
Qed.

(** On the sample database the first user joins the delivery crew and
    leaves it. *)
Lemma group_round_trip_witness :
  let crew := {| Group.id := 2; Group.name := "Delivery Crew" |} in
  let db1 := snd (GroupUserViewSet.create crew [("username", "ann")] sample_db) in
  ~ In (1, 2) (user_groups sample_db)
  /\ GroupUserViewSet.destroy crew 1 db1
     = (Ok {| status_code := HTTP_200_OK;
              data := [("message", "User removed from group")] |}, sample_db).
Proof.
  intros crew db1.
  assert (Hnot : ~ In (1, 2) (user_groups sample_db))
    by (simpl; intros [[=] | []]).
  split; [exact Hnot |].
  exact (group_add_then_remove_is_identity crew
           {| User.id := 1; User.username := "ann" |} [("username", "ann")]
           sample_db db1
           {| status_code := HTTP_201_CREATED;
              data := [("message", "User added to group")] |}
           eq_refl eq_refl Hnot eq_refl).
Defined.

Lemma NoDup_map_inj {A B} (key : A -> B) (l : list A) (a b : A) :
  NoDup (map key l) -> In a l -> In b l -> key a = key b -> a = b.
Proof.
  induction l as [| x l IH]; intros Hnd Ha Hb Heq; [contradiction |].
  simpl in Hnd. inversion Hnd as [| ? ? Hnotin Hnd']; subst.
  destruct Ha as [-> | Ha], Hb as [-> | Hb]; try reflexivity.
  - exfalso. apply Hnotin. rewrite Heq. now apply in_map.
  - exfalso. apply Hnotin. rewrite <- Heq. now apply in_map.
  - now apply IH.
Qed.

(** X12. The membership endpoint decides who may deliver: once a user has
    been added to the group named "Delivery Crew", [validate_delivery_crew]
    accepts the user; once a user has been removed from it, and no other
    group has that name, [validate_delivery_crew] refuses the user. *)
Theorem group_membership_decides_delivery_crew (group : Group.t) (db : DB) :
  In group (groups db) ->
  Group.name group = "Delivery Crew" ->
  (forall request_data response db1,
     GroupUserViewSet.create group request_data db = (Ok response, db1) ->
     exists user,
       In user (users db)
       /\ GroupUserViewSet.data_get "username" request_data
          = Some (User.username user)
       /\ OrderSerializer.validate_delivery_crew (Some (User.id user)) db1
          = (Ok (Some (User.id user)), db1))
  /\ (NoDup (map Group.name (groups db)) ->
      forall pk response db1,
        GroupUserViewSet.destroy group pk db = (Ok response, db1) ->
        OrderSerializer.validate_delivery_crew (Some pk) db1
        = (Raise (ValidationError (DetailList ["Invalid delivery crew ID"])),
           db1)).
Proof.
  intros Hgroup Hname. split.
  - intros request_data response db1 H.
    rewrite GroupUserViewSet_create_unfold in H.
    destruct (GroupUserViewSet.data_get "username" request_data)
      as [username |]; [| discriminate].
    destruct (find _ (users db)) as [user |] eqn:Hfind; [| discriminate].
    injection H as _ Hdb1.
    pose proof (find_some _ _ Hfind) as [Hin Hu]. apply String.eqb_eq in Hu.
    exists user. split; [assumption |]. split; [now rewrite Hu |].
    assert (Hmember : ORM.User_in_group db1 (User.id user) "Delivery Crew" = true).
    { apply User_in_group_iff. exists group. rewrite <- Hdb1.
      destruct (GroupUserViewSet.in_user_set db group (User.id user)) eqn:Hmem.
      - apply in_user_set_iff in Hmem. auto.
      - simpl. repeat split; try assumption.
        apply in_or_app. right. now left. }
    unfold OrderSerializer.validate_delivery_crew. run. now rewrite Hmember.
  - intros Hnd pk response db1 H.
    rewrite GroupUserViewSet_destroy_unfold in H.
    destruct (find _ (GroupUserViewSet.get_queryset db group)) as [user |]
      eqn:Hfind; [| discriminate].
    injection H as _ Hdb1.
    apply find_some_id in Hfind as [_ Hid].
    assert (Hout : ORM.User_in_group db1 pk "Delivery Crew" = false).
    { apply belongs_to_dec. intros (g & Hg & Hgname & Hrow).
      rewrite <- Hdb1 in Hg, Hrow. simpl in Hg, Hrow.
      assert (g = group) as ->
        by (apply (NoDup_map_inj Group.name (groups db)); congruence).
      apply filter_In in Hrow as [_ Hrow]. simpl in Hrow.
      now rewrite Hid, !Z.eqb_refl in Hrow. }
    unfold OrderSerializer.validate_delivery_crew. run. now rewrite Hout.
Qed.

(** On the sample database the first user is accepted as delivery crew
    after joining, and the second is refused after leaving. *)
Lemma group_membership_witness :
  let crew := {| Group.id := 2; Group.name := "Delivery Crew" |} in
  let joined := snd (GroupUserViewSet.create crew [("username", "ann")] sample_db) in
  let left_ := snd (GroupUserViewSet.destroy crew 2 sample_db) in
  In crew (groups sample_db)
  /\ NoDup (map Group.name (groups sample_db))
  /\ OrderSerializer.validate_delivery_crew (Some 1) joined = (Ok (Some 1), joined)
  /\ OrderSerializer.validate_delivery_crew (Some 2) left_
     = (Raise (ValidationError (DetailList ["Invalid delivery crew ID"])), left_).
Proof.
  intros crew joined left_.
  assert (Hin : In crew (groups sample_db)) by (right; left; reflexivity).
  assert (Hnd : NoDup (map Group.name (groups sample_db))).
  { simpl. repeat constructor; simpl; intuition discriminate. }
  split; [exact Hin |]. split; [exact Hnd |].
  pose proof (group_membership_decides_delivery_crew crew sample_db Hin eq_refl)
    as [Hadd Hremove].
  split.
  - reflexivity.
  - exact (Hremove Hnd 2
             {| status_code := HTTP_200_OK;
                data := [("message", "User removed from group")] |}
             left_ eq_refl).
Defined.

(** ** Cart items: what is accepted, and what is kept *)











(** ** One user cannot reach the cart of another *)

Lemma CartItemViewSet_get_object_spec (user pk : Z) (db : DB) :
  match CartItemViewSet.get_object user pk db with
  | (Ok i, db') =>
      db' = db /\ In i (cart_items db)
      /\ CartItem.id i = pk /\ CartItem.user i = user
  | (Raise e, db') =>
      db' = db /\ e = Http404 "No CartItem matches the given query."
      /\ forall i, In i (cart_items db) -> CartItem.id i = pk ->
           CartItem.user i <> user
  end.
Proof.
  unfold CartItemViewSet.get_object, CartItemViewSet.get_queryset. run.
  destruct (find _ (filter _ (cart_items db))) as [i |] eqn:Hfind.
  - apply find_some_id in Hfind as [Hin Hid].
    apply filter_In in Hin as [Hin Hu]. apply Z.eqb_eq in Hu. auto.
  - split; [reflexivity |]. split; [reflexivity |].
    intros i Hi Hid Hu.
    apply find_none_iff with (x := i) in Hfind.
    + apply Z.eqb_neq in Hfind. contradiction.
    + apply filter_In. split; [assumption | now apply Z.eqb_eq].
Qed.

Lemma filter_map_replace_other (l : list CartItem.t) (pk v : Z)
  (item : CartItem.t) :
  (forall i, In i l -> CartItem.id i = pk -> CartItem.user i <> v) ->
  CartItem.user item <> v ->
  filter (fun i => CartItem.user i =? v)
    (map (fun i => if CartItem.id i =? pk then item else i) l)
  = filter (fun i => CartItem.user i =? v) l.
Proof.
  intros Hrows Hitem. induction l as [| x l IH]; [reflexivity |].
  simpl. rewrite IH by (intros i Hi; apply Hrows; now right).
  destruct (Z.eqb_spec (CartItem.id x) pk) as [Hx | Hx]; [| reflexivity].
  apply Z.eqb_neq in Hitem. rewrite Hitem.
  pose proof (Hrows x (or_introl eq_refl) Hx) as Hxu.
  apply Z.eqb_neq in Hxu. now rewrite Hxu.
Qed.

Lemma filter_filter_other (l : list CartItem.t) (pk v : Z) :
  (forall i, In i l -> CartItem.id i = pk -> CartItem.user i <> v) ->
  filter (fun i => CartItem.user i =? v)
    (filter (fun i => negb (CartItem.id i =? pk)) l)
  = filter (fun i => CartItem.user i =? v) l.
Proof.
  intros Hrows. induction l as [| x l IH]; [reflexivity |].
  simpl. rewrite <- IH by (intros i Hi; apply Hrows; now right).
  destruct (Z.eqb_spec (CartItem.id x) pk) as [Hx | Hx]; simpl; [| reflexivity].
  pose proof (Hrows x (or_introl eq_refl) Hx) as Hxu.
  apply Z.eqb_neq in Hxu. now rewrite Hxu.
Qed.

(** X14. The cart item of another user is out of reach: its update and its
    removal raise [Http404] and leave the database as it was. And where the
    cart items have distinct primary keys, the update or the removal of a
    cart item of the user leaves the cart items of every other user as they
    were; the removal takes the cart item out of the table. *)
Theorem cart_items_of_other_users_are_out_of_reach (user pk : Z) (db : DB) :
  ((forall i, In i (cart_items db) -> CartItem.id i = pk ->
      CartItem.user i <> user) ->
   (forall partial data,
      CartItemViewSet.update user pk partial data db
      = (Raise (Http404 "No CartItem matches the given query."), db))
   /\ CartItemViewSet.destroy user pk db
      = (Raise (Http404 "No CartItem matches the given query."), db))
  /\ (NoDup (map CartItem.id (cart_items db)) ->
      forall other, other <> user ->
        (forall partial data item db',
           CartItemViewSet.update user pk partial data db = (Ok item, db') ->
           ORM.User_cart_items db' other = ORM.User_cart_items db other)
        /\ (forall response db',
              CartItemViewSet.destroy user pk db = (Ok response, db') ->
              ORM.User_cart_items db' other = ORM.User_cart_items db other
              /\ (forall i, In i (cart_items db') -> CartItem.id i <> pk)
              /\ status_code response = HTTP_204_NO_CONTENT)).
Proof.
  pose proof (CartItemViewSet_get_object_spec user pk db) as Hobj.
  split.
  - intros Hforeign.
    assert (H404 : CartItemViewSet.get_object user pk db
                   = (Raise (Http404 "No CartItem matches the given query."),
                      db)).
    { destruct (CartItemViewSet.get_object user pk db) as [[i | e] db1].
      - destruct Hobj as (_ & Hi & Hid & Hu). now apply Hforeign in Hi.
      - destruct Hobj as (-> & -> & _). reflexivity. }
    split; [intros partial data |];
      unfold CartItemViewSet.update, CartItemViewSet.destroy, bind;
      now rewrite H404.
  - intros Hids other Hother.
    assert (Hrows : forall instance,
               In instance (cart_items db) -> CartItem.id instance = pk ->
               CartItem.user instance = user ->
               forall i, In i (cart_items db) -> CartItem.id i = pk ->
                 CartItem.user i <> other).
    { intros instance Hin Hid Hu i Hi Hipk.
      assert (i = instance) as ->
        by (apply (NoDup_map_eq CartItem.id (cart_items db)); congruence).
      congruence. }
    split.
    + intros partial data item db' H.
      apply CartItemViewSet_update_Ok in H
        as (instance & Hin & Hid & Hu & _ & _ & Hiu & _ & _ & Hitems & _).
      unfold ORM.User_cart_items. rewrite Hitems.
      apply filter_map_replace_other; [| congruence].
      exact (Hrows instance Hin Hid Hu).
    + intros response db' H.
      unfold CartItemViewSet.destroy, bind in H.
      destruct (CartItemViewSet.get_object user pk db) as [[instance | e] db1];
        [| discriminate].
      destruct Hobj as (-> & Hin & Hid & Hu).
      unfold ORM.CartItem_delete in H. run in H.
      injection H as <- <-. unfold ORM.User_cart_items. simpl.
      rewrite Hid. split; [| split; [| reflexivity]].
      * apply filter_filter_other. exact (Hrows instance Hin Hid Hu).
      * intros i Hi. apply filter_In in Hi as [_ Hne].
        now apply Z.eqb_neq, negb_true_iff.
Qed.

(** On the sample database the second user cannot touch the first cart
    item, which is of the first user; the first user removes it, and the
    second cart item stays. *)
Lemma cart_items_out_of_reach_witness :
  let data := {| CartItemData.menu_item_id := None;
                 CartItemData.quantity := Some 9 |} in
  CartItemViewSet.update 2 1 true data sample_db
  = (Raise (Http404 "No CartItem matches the given query."), sample_db)
  /\ NoDup (map CartItem.id (cart_items sample_db))
  /\ ORM.User_cart_items (snd (CartItemViewSet.destroy 1 1 sample_db)) 2
     = ORM.User_cart_items sample_db 2.
Proof.
  intros data.
  assert (Hids : NoDup (map CartItem.id (cart_items sample_db))).
  { simpl. repeat constructor; simpl; intuition discriminate. }
  pose proof (cart_items_of_other_users_are_out_of_reach 2 1 sample_db)
    as [Hforeign _].
  pose proof (cart_items_of_other_users_are_out_of_reach 1 1 sample_db)
    as [_ Hown].
  split; [| split; [exact Hids |]].
  - apply Hforeign. simpl. intros i [<- | [<- | []]]; simpl; intros; discriminate.
  - assert (Hne : 2 <> 1) by discriminate.
    exact (proj1 (proj2 (Hown Hids 2 Hne)
                    {| status_code := HTTP_204_NO_CONTENT; data := [] |}
                    (snd (CartItemViewSet.destroy 1 1 sample_db)) eq_refl)).
Defined.

Lemma find_filter_keep {A} (f g : A -> bool) (l : list A) :
  (forall x, In x l -> f x = true -> g x = true) ->
  find f (filter g l) = find f l.
Proof.
  induction l as [| x l IH]; intros H; [reflexivity |].
  simpl. destruct (f x) eqn:Hf.
  - rewrite (H x (or_introl eq_refl) Hf). simpl. now rewrite Hf.
  - destruct (g x); simpl; [rewrite Hf |]; apply IH;
      intros y Hy; apply H; now right.
Qed.

Lemma filter_filter_keep {A} (f g : A -> bool) (l : list A) :
  (forall x, In x l -> f x = true -> g x = true) ->
  filter f (filter g l) = filter f l.
Proof.
  induction l as [| x l IH]; intros H; [reflexivity |].
  simpl. destruct (f x) eqn:Hf.
  - rewrite (H x (or_introl eq_refl) Hf). simpl. rewrite Hf.
    f_equal. apply IH. intros y Hy. apply H. now right.
  - destruct (g x); simpl; [rewrite Hf |]; apply IH;
      intros y Hy; apply H; now right.
Qed.

(** Deleting the cart of a user leaves the cart and the cart items of any
    other user where they are. *)
Lemma Cart_delete_other_users (db : DB) (cart : Cart.t) (other : Z) :
  In cart (carts db) ->
  Cart.user cart <> other ->
  NoDup (map Cart.id (carts db)) ->
  cart_items_own_cart db ->
  let db' :=
    set_carts (filter (fun c => negb (Cart.id c =? Cart.id cart)) (carts db))
      (set_cart_items
         (filter (fun i => negb (CartItem.cart i =? Cart.id cart))
            (cart_items db)) db) in
  ORM.User_cart db' other = ORM.User_cart db other
  /\ ORM.User_cart_items db' other = ORM.User_cart_items db other.
Proof.
  intros Hcart Hother Hids Hown db'. subst db'.
  unfold ORM.User_cart, ORM.User_cart_items. simpl. split.
  - apply find_filter_keep. intros c Hc Hu. apply Z.eqb_eq in Hu.
    apply negb_true_iff, Z.eqb_neq. intros Hid.
    assert (c = cart) as ->
      by (apply (NoDup_map_eq Cart.id (carts db)); assumption).
    contradiction.
  - apply filter_filter_keep. intros i Hi Hu. apply Z.eqb_eq in Hu.
    apply negb_true_iff, Z.eqb_neq. intros Hid.
    destruct (Hown i Hi) as (c & Hc & Hcid & Hcu).
    assert (c = cart) as ->
      by (apply (NoDup_map_eq Cart.id (carts db)); congruence).
    congruence.
Qed.

(** X15. Emptying the cart of a user and placing an order for a user leave
    the cart and the cart items of every other user as they were, on a
    database where the carts have distinct primary keys and every cart item
    sits in a cart of its user. *)
Theorem other_carts_are_untouched (user other : Z) (db : DB) :
  other <> user ->
  NoDup (map Cart.id (carts db)) ->
  cart_items_own_cart db ->
  (let db' := snd (CartItemViewSet.destroy_all user db) in
   ORM.User_cart db' other = ORM.User_cart db other
   /\ ORM.User_cart_items db' other = ORM.User_cart_items db other)
  /\ (forall today validated_data order db',
        OrderAttrs.user validated_data = Some user ->
        OrderSerializer.create today validated_data db = (Ok order, db') ->
        ORM.User_cart db' other = ORM.User_cart db other
        /\ ORM.User_cart_items db' other = ORM.User_cart_items db other).
Proof.
  intros Hother Hids Hown. split.
  - unfold CartItemViewSet.destroy_all, ORM.Cart_delete. run.
    destruct (ORM.User_cart db user) as [cart |] eqn:Hcart; simpl; [| auto].
    apply find_some in Hcart as [Hin Hu]. apply Z.eqb_eq in Hu.
    apply Cart_delete_other_users; try assumption. congruence.
  - intros today validated_data order db' Huser H.
    destruct (OrderSerializer_create_Ok _ _ _ _ _ _ Huser H)
      as (new_items & cart & _ & Hcart & _ & ->).
    apply find_some in Hcart as [Hin Hu]. apply Z.eqb_eq in Hu.
    apply (Cart_delete_other_users db cart other); try assumption. congruence.
Qed.

Lemma two_carts_db_own_cart : cart_items_own_cart two_carts_db.
Proof.
  intros i Hi. simpl in Hi.
  destruct Hi as [<- | [<- | [<- | []]]].
  - exists {| Cart.id := 1; Cart.user := 1 |}. simpl. auto.
  - exists {| Cart.id := 1; Cart.user := 1 |}. simpl. auto.
  - exists {| Cart.id := 2; Cart.user := 2 |}. simpl. auto.
Defined.

(** With two carts in the database, the order of the first user and the
    emptying of the first cart leave the cart of the second user alone. *)
Lemma other_carts_witness :
  let cart2 := {| Cart.id := 2; Cart.user := 2 |} in
  let emptied := snd (CartItemViewSet.destroy_all 1 two_carts_db) in
  let ordered :=
    snd (OrderSerializer.create 20240102 sample_order_attrs two_carts_db) in
  NoDup (map Cart.id (carts two_carts_db))
  /\ cart_items_own_cart two_carts_db
  /\ ORM.User_cart two_carts_db 2 = Some cart2
  /\ ORM.User_cart emptied 2 = Some cart2
  /\ ORM.User_cart_items emptied 2 = ORM.User_cart_items two_carts_db 2
  /\ ORM.User_cart ordered 2 = Some cart2
  /\ ORM.User_cart_items ordered 2 = ORM.User_cart_items two_carts_db 2.
Proof.
  intros cart2 emptied ordered.
  assert (Hids : NoDup (map Cart.id (carts two_carts_db))).
  { simpl. repeat constructor; simpl; intuition discriminate. }
  assert (Hne : 2 <> 1) by discriminate.
  pose proof (other_carts_are_untouched 1 2 two_carts_db Hne Hids
                two_carts_db_own_cart) as [Hempty Horder].
  specialize (Horder 20240102 sample_order_attrs sample_new_order ordered
                eq_refl eq_refl).
  split; [exact Hids |]. split; [exact two_carts_db_own_cart |].
  split; [reflexivity |].
  split; [exact (proj1 Hempty) |]. split; [exact (proj2 Hempty) |].
  split; [exact (proj1 Horder) | exact (proj2 Horder)].
Defined.

(** ** The cart that a user sees *)

(** X16. A user sees carts of the user only; where a user has one cart at
    most (the one-to-one field), [CartViewSet.get_queryset] holds the cart
    that [user.cart] gives and nothing else, and it is empty once the user
    has emptied the cart. *)
Theorem user_sees_own_cart_only (user : Z) (db : DB) :
  (forall c, In c (CartViewSet.get_queryset db user) ->
     In c (carts db) /\ Cart.user c = user)
  /\ (NoDup (map Cart.user (carts db)) ->
      CartViewSet.get_queryset db user
      = match ORM.User_cart db user with
        | Some cart => [cart]
        | None => []
        end
      /\ CartViewSet.get_queryset
           (snd (CartItemViewSet.destroy_all user db)) user = []).
Proof.
  split.
  - intros c Hc. apply filter_In in Hc as [Hin Hu]. now apply Z.eqb_eq in Hu.
  - intros Hnd.
    assert (Hone : forall l, NoDup (map Cart.user l) ->
               filter (fun c => Cart.user c =? user) l
               = match find (fun c => Cart.user c =? user) l with
                 | Some cart => [cart]
                 | None => []
                 end).
    { clear. induction l as [| c l IH]; intros Hnd; [reflexivity |].
      simpl in *. inversion Hnd as [| ? ? Hnotin Hnd']; subst.
      destruct (Z.eqb_spec (Cart.user c) user) as [Hu | Hu]; [| now apply IH].
      f_equal. apply filter_nil. intros x Hx. apply Z.eqb_neq.
      intros Hxu. apply Hnotin. rewrite Hu, <- Hxu. now apply in_map. }
    split; [exact (Hone (carts db) Hnd) |].
    unfold CartViewSet.get_queryset.
    rewrite Hone by (apply (proj1 (destroy_all_keeps_invariants user db)), Hnd).
    unfold CartItemViewSet.destroy_all, ORM.Cart_delete. run.
    destruct (ORM.User_cart db user) as [cart |] eqn:Hcart; simpl.
    + unfold ORM.User_cart in Hcart. now rewrite (User_cart_deleted _ _ _ Hnd Hcart).
    + unfold ORM.User_cart in Hcart. now rewrite Hcart.
Qed.

(** On the database with two carts each user sees one cart. *)
Lemma user_sees_own_cart_witness :
  NoDup (map Cart.user (carts two_carts_db))
  /\ CartViewSet.get_queryset two_carts_db 2 = [ {| Cart.id := 2; Cart.user := 2 |} ]
  /\ CartViewSet.get_queryset
       (snd (CartItemViewSet.destroy_all 2 two_carts_db)) 2 = [].
Proof.
  assert (Hnd : NoDup (map Cart.user (carts two_carts_db))).
  { simpl. repeat constructor; simpl; intuition discriminate. }
  split; [exact Hnd |].
  exact (proj2 (user_sees_own_cart_only 2 two_carts_db) Hnd).
Defined.

(** ** Hidden fields *)

Lemma filter_filter_andb {A} (f g : A -> bool) (l : list A) :
  filter f (filter g l) = filter (fun x => g x && f x) l.
Proof.
  induction l as [| x l IH]; [reflexivity |].
  simpl. destruct (g x); simpl; [destruct (f x) |]; now rewrite IH.
Qed.

Lemma get_fields_is_filter (hidden_fields fields : list string) :
  HiddenFieldSerializerMixin.get_fields hidden_fields fields
  = filter (fun name => negb (existsb (String.eqb name) hidden_fields)) fields.
Proof.
  unfold HiddenFieldSerializerMixin.get_fields.
  revert fields. induction hidden_fields as [| h hs IH]; intros fields; simpl.
  - symmetry. apply forallb_filter_id. now apply forallb_forall.
  - rewrite IH. unfold HiddenFieldSerializerMixin.pop.
    rewrite filter_filter_andb. apply filter_ext. intros name.
    now rewrite negb_orb.
Qed.

(** X17. [get_fields] of the mixin removes the hidden fields and nothing
    else, and keeps the other fields in their order: a field is left exactly
    when it was there and is not hidden. Hiding a field that is not there
    changes nothing, and hiding twice is hiding once. *)
Theorem get_fields_removes_exactly_the_hidden_fields
  (hidden_fields fields : list string) :
  (forall name,
     In name (HiddenFieldSerializerMixin.get_fields hidden_fields fields)
     <-> In name fields /\ ~ In name hidden_fields)
  /\ HiddenFieldSerializerMixin.get_fields hidden_fields fields
     = filter (fun name => negb (existsb (String.eqb name) hidden_fields))
         fields
  /\ ((forall name, In name hidden_fields -> ~ In name fields) ->
      HiddenFieldSerializerMixin.get_fields hidden_fields fields = fields)
  /\ HiddenFieldSerializerMixin.get_fields hidden_fields
       (HiddenFieldSerializerMixin.get_fields hidden_fields fields)
     = HiddenFieldSerializerMixin.get_fields hidden_fields fields
  /\ (NoDup fields ->
      NoDup (HiddenFieldSerializerMixin.get_fields hidden_fields fields)).
Proof.
  rewrite !get_fields_is_filter.
  assert (Hin : forall name,
             existsb (String.eqb name) hidden_fields = true
             <-> In name hidden_fields).
  { intros name. rewrite existsb_exists. split.
    - intros (h & Hh & Heq). apply String.eqb_eq in Heq. now subst.
    - intros Hh. exists name. split; [assumption | apply String.eqb_refl]. }
  split; [| split; [| split; [| split]]].
  - intros name. rewrite filter_In, negb_true_iff, <- Hin.
    destruct (existsb (String.eqb name) hidden_fields); intuition congruence.
  - reflexivity.
  - intros Habsent. apply forallb_filter_id, forallb_forall.
    intros name Hname. apply negb_true_iff, not_true_is_false.
    intros Hhidden. apply Hin in Hhidden. exact (Habsent name Hhidden Hname).
  - rewrite filter_filter_andb. apply filter_ext. intros name.
    now destruct (existsb (String.eqb name) hidden_fields).
  - apply NoDup_filter.
Qed.

(** The fields of the order serializer, and a field that is not among
    them. *)
Lemma get_fields_witness :
  (forall name, In name ["price"] -> ~ In name OrderSerializer.Meta_fields)
  /\ HiddenFieldSerializerMixin.get_fields ["price"] OrderSerializer.Meta_fields
     = OrderSerializer.Meta_fields.
Proof.
  assert (Habsent : forall name, In name ["price"] ->
                      ~ In name OrderSerializer.Meta_fields).
  { intros name [<- | []]. simpl. intuition discriminate. }
  split; [exact Habsent |].
  exact (proj1 (proj2 (proj2 (get_fields_removes_exactly_the_hidden_fields
                                ["price"] OrderSerializer.Meta_fields)))
           Habsent).
Defined.

(** ** Placing an order on a consistent database *)






(** ** Every request keeps the database consistent *)





Lemma set_carts_cart_items_id (db : DB) :
  set_carts (carts db) (set_cart_items (cart_items db) db) = db.
Proof. now destruct db. Qed.








Section GroupRequests.

Variable slugify : string -> string.
Variable has_permission : string -> Z -> DB -> bool.



End GroupRequests.








Section Served.

Variable slugify : string -> string.
Variable has_permission : string -> Z -> DB -> bool.


End Served.





(** ** The group names that the route lets through *)

Lemma append_empty (s1 s2 : string) :
  String.append s1 s2 = EmptyString -> s1 = EmptyString /\ s2 = EmptyString.
Proof. destruct s1; simpl; [auto | discriminate]. Qed.

Lemma nullable_Lang (r : Regex) : nullable r = true <-> Lang r EmptyString.
Proof.
  split.
  - induction r; simpl; intros H; try discriminate.
    + constructor.
    + apply andb_true_iff in H as [H1 H2].
      apply (Lang_Seq r1 r2 EmptyString EmptyString); auto.
    + apply orb_true_iff in H as [H | H];
        [apply Lang_Alt_l | apply Lang_Alt_r]; auto.
    + constructor.
  - intros H. remember EmptyString as s eqn:Hs.
    induction H; simpl; try reflexivity; try discriminate.
    + apply append_empty in Hs as [-> ->].
      now rewrite IHLang1, IHLang2.
    + now rewrite IHLang.
    + rewrite IHLang by assumption. apply orb_true_r.
Qed.

Lemma deriv_sound (c : ascii) (r : Regex) :
  forall s, Lang (deriv c r) s -> Lang r (String c s).
Proof.
  induction r; simpl; intros s H.
  - inversion H.
  - inversion H.
  - destruct (p c) eqn:Hp; inversion H; subst. now constructor.
  - destruct (nullable r1) eqn:Hnull.
    + inversion H as [| | | ? ? ? H' | ? ? ? H' | |]; subst.
      * inversion H' as [| | ? ? s1 s2 H1 H2 | | | |]; subst.
        apply (Lang_Seq r1 r2 (String c s1) s2); auto.
      * apply (Lang_Seq r1 r2 EmptyString (String c s));
          [now apply nullable_Lang | auto].
    + inversion H as [| | ? ? s1 s2 H1 H2 | | | |]; subst.
      apply (Lang_Seq r1 r2 (String c s1) s2); auto.
  - inversion H; subst; [apply Lang_Alt_l | apply Lang_Alt_r]; auto.
  - inversion H as [| | ? ? s1 s2 H1 H2 | | | |]; subst.
    apply (Lang_Star_cons r (String c s1) s2); auto.
Qed.

Lemma deriv_complete (c : ascii) (r : Regex) (s' : string) :
  Lang r s' -> forall s, s' = String c s -> Lang (deriv c r) s.
Proof.
  induction 1 as [| p c' Hp | r1 r2 s1 s2 H1 IH1 H2 IH2 | r1 r2 s0 H0 IH0
                 | r1 r2 s0 H0 IH0 | r | r s1 s2 H1 IH1 H2 IH2];
    intros s Hs; simpl.
  - discriminate.
  - injection Hs as -> <-. rewrite Hp. constructor.
  - destruct s1 as [| c1 s1']; simpl in Hs.
    + apply nullable_Lang in H1. rewrite H1. apply Lang_Alt_r. auto.
    + injection Hs as -> <-.
      assert (Hseq : Lang (Seq (deriv c r1) r2) (String.append s1' s2))
        by (constructor; auto).
      destruct (nullable r1); [now apply Lang_Alt_l | assumption].
  - apply Lang_Alt_l. auto.
  - apply Lang_Alt_r. auto.
  - discriminate.
  - destruct s1 as [| c1 s1']; simpl in Hs.
    + apply (IH2 s Hs).
    + injection Hs as -> <-. constructor; auto.
Qed.

(** The matcher decides the strings of the expression. *)
Lemma fullmatch_Lang (s : string) :
  forall r, fullmatch r s = true <-> Lang r s.
Proof.
  induction s as [| c s IH]; intros r; simpl.
  - apply nullable_Lang.
  - rewrite IH. split; [apply deriv_sound |].
    intros H. now apply (deriv_complete c r (String c s)).
Qed.

Lemma Lang_Star_Class (p : ascii -> bool) (s : string) :
  Lang (Star (Class p)) s
  <-> Forall (fun c => p c = true) (list_ascii_of_string s).
Proof.
  split.
  - intros H. remember (Star (Class p)) as r eqn:Hr.
    induction H as [| | | | | r' | r' s1 s2 H1 _ H2 IH2]; try discriminate.
    + constructor.
    + injection Hr as ->. inversion H1; subst. simpl.
      constructor; [assumption | now apply IH2].
  - induction s as [| c s IH]; simpl; intros H.
    + constructor.
    + inversion H; subst.
      apply (Lang_Star_cons (Class p) (String c EmptyString) s);
        [now constructor | auto].
Qed.

Lemma Lang_Plus_Class (s : string) :
  Lang (Plus (Class lower_or_digit)) s <-> is_word s.
Proof.
  unfold Plus, is_word. split.
  - intros H. inversion H as [| | ? ? s1 s2 H1 H2 | | | |]; subst.
    inversion H1; subst. simpl. split; [discriminate |].
    constructor; [assumption | now apply Lang_Star_Class].
  - intros [Hne Hall]. destruct s as [| c s]; [contradiction |].
    simpl in Hall. inversion Hall; subst.
    apply (Lang_Seq (Class lower_or_digit) _ (String c EmptyString) s);
      [now constructor | now apply Lang_Star_Class].
Qed.

Lemma concat_hyphenated (w : string) (ws : list string) :
  String.concat "-" (w :: ws) = String.append w (hyphenated ws).
Proof.
  revert w. induction ws as [| w' ws IH]; intros w; simpl.
  - clear. induction w as [| c w IH]; simpl; [reflexivity | now rewrite <- IH].
  - f_equal. f_equal. apply IH.
Qed.

Lemma append_assoc (s1 s2 s3 : string) :
  String.append (String.append s1 s2) s3 = String.append s1 (String.append s2 s3).
Proof. induction s1 as [| c s1 IH]; simpl; [reflexivity | now rewrite IH]. Qed.

Lemma Lang_Star_hyphenated (s : string) :
  Lang (Star (Seq (Chr "-") (Plus (Class lower_or_digit)))) s
  <-> exists ws, Forall is_word ws /\ s = hyphenated ws.
Proof.
  split.
  - intros H.
    remember (Star (Seq (Chr "-") (Plus (Class lower_or_digit)))) as r eqn:Hr.
    induction H as [| | | | | r' | r' s1 s2 H1 _ H2 IH2]; try discriminate.
    + exists []. split; [constructor | reflexivity].
    + injection Hr as ->. destruct (IH2 eq_refl) as (ws & Hws & ->).
      inversion H1 as [| | ? ? h w Hh Hw | | | |]; subst.
      inversion Hh as [| ? c Hc | | | | |]; subst.
      apply Ascii.eqb_eq in Hc. subst c.
      exists (w :: ws). split.
      * constructor; [now apply Lang_Plus_Class | assumption].
      * simpl. reflexivity.
  - intros (ws & Hws & ->). induction Hws as [| w ws Hw _ IH]; simpl.
    + constructor.
    + apply (Lang_Star_cons _ (String "-" w) (hyphenated ws)); [| exact IH].
      apply (Lang_Seq (Chr "-") _ (String "-" EmptyString) w).
      * constructor. apply Ascii.eqb_refl.
      * now apply Lang_Plus_Class.
Qed.

(** X20. The route of the members of a group lets a path through exactly
    when its [group_name] is a sequence of one or more words, each of one or
    more lower-case letters and digits, with one hyphen between two words:
    this is what the matcher of the pattern [[a-z0-9]+(?:-[a-z0-9]+)*]
    decides. *)
Theorem group_name_pattern_matches_hyphenated_words (group_name : string) :
  fullmatch group_name_pattern group_name = true
  <-> exists w ws,
        Forall is_word (w :: ws)
        /\ group_name = String.concat "-" (w :: ws).
Proof.
  rewrite fullmatch_Lang. unfold group_name_pattern. split.
  - intros H. inversion H as [| | ? ? s1 s2 H1 H2 | | | |]; subst.
    apply Lang_Plus_Class in H1.
    apply Lang_Star_hyphenated in H2 as (ws & Hws & ->).
    exists s1, ws. split; [now constructor |].
    now rewrite concat_hyphenated.
  - intros (w & ws & Hall & ->). inversion Hall; subst.
    rewrite concat_hyphenated. constructor.
    + now apply Lang_Plus_Class.
    + apply Lang_Star_hyphenated. eauto.
Qed.

Lemma group_name_pattern_witness :
  fullmatch group_name_pattern "delivery-crew" = true
  /\ fullmatch group_name_pattern "Delivery Crew" = false
  /\ fullmatch group_name_pattern "delivery--crew" = false
  /\ fullmatch group_name_pattern "-crew" = false
  /\ fullmatch group_name_pattern "" = false.
Proof.
  split.
  - apply (proj2 (group_name_pattern_matches_hyphenated_words "delivery-crew")).
    exists "delivery", ["crew"]. split; [| reflexivity].
    repeat constructor; discriminate.
  - repeat split; reflexivity.
Defined.
